(** * Lifecycle manager of the Graphiti/Gemini service

    A shallow embedding of [app/config.py], [app/models.py], [app/utils.py]
    and the search endpoint of [app/main.py].

    The Python objects are records, the external services (the Graphiti
    engine with its Neo4j database, and the Gemini model) are an oracle that
    answers the n-th call of each kind, and every call into them is recorded
    in an event list, so that "how many constructions happened" and "which
    delays were slept" are functions of the final state.  Coroutines are
    embedded twice: as run-to-completion functions in a state-and-exception
    monad (one caller at a time), and as resumable tasks that an event loop
    interleaves at their [await] points. *)

From Stdlib Require Import ZArith List String Bool Lia Sorted.
From Stdlib Require QArith_base.
From stdpp Require Import base option list gmap strings relations.
Import ListNotations.

Local Open Scope string_scope.

(** ** app/config.py *)

Module Config.

(** Python floats are only stored and passed on, never computed with;
    they are kept as rationals. *)
Definition float := QArith_base.Q.

Record Settings := {
  google_api_key : string;
  openai_api_key : string;
  neo4j_uri : string;
  neo4j_user : string;
  neo4j_password : string;
  gemini_model : string;
  gemini_temperature : float;
  gemini_max_tokens : option Z;
  semaphore_limit : Z;
  max_retries : Z;
  retry_delay : float;
  app_host : string;
  app_port : Z;
  debug : bool;
  use_parallel_runtime : bool;
  graphiti_telemetry_enabled : bool
}.

(** The field defaults of the class; the three required fields have none
    and are arguments. *)
Definition default_settings (google_key openai_key password : string) : Settings :=
  {| google_api_key := google_key;
     openai_api_key := openai_key;
     neo4j_uri := "bolt://neo4j:7687";
     neo4j_user := "neo4j";
     neo4j_password := password;
     gemini_model := "gemini-1.5-pro";
     gemini_temperature := QArith_base.Qmake 1 10;
     gemini_max_tokens := None;
     semaphore_limit := 5;
     max_retries := 3;
     retry_delay := QArith_base.Qmake 1 1;
     app_host := "0.0.0.0";
     app_port := 8000;
     debug := false;
     use_parallel_runtime := false;
     graphiti_telemetry_enabled := false |}.

(** [validate_required_keys]: an empty value is refused. *)
Definition validate_required_keys (v : string) : option string :=
  if String.eqb v "" then None else Some v.

Definition set_max_retries (n : Z) (s : Settings) : Settings :=
  {| google_api_key := google_api_key s;
     openai_api_key := openai_api_key s;
     neo4j_uri := neo4j_uri s;
     neo4j_user := neo4j_user s;
     neo4j_password := neo4j_password s;
     gemini_model := gemini_model s;
     gemini_temperature := gemini_temperature s;
     gemini_max_tokens := gemini_max_tokens s;
     semaphore_limit := semaphore_limit s;
     max_retries := n;
     retry_delay := retry_delay s;
     app_host := app_host s;
     app_port := app_port s;
     debug := debug s;
     use_parallel_runtime := use_parallel_runtime s;
     graphiti_telemetry_enabled := graphiti_telemetry_enabled s |}.

Definition set_retry_delay (d : float) (s : Settings) : Settings :=
  {| google_api_key := google_api_key s;
     openai_api_key := openai_api_key s;
     neo4j_uri := neo4j_uri s;
     neo4j_user := neo4j_user s;
     neo4j_password := neo4j_password s;
     gemini_model := gemini_model s;
     gemini_temperature := gemini_temperature s;
     gemini_max_tokens := gemini_max_tokens s;
     semaphore_limit := semaphore_limit s;
     max_retries := max_retries s;
     retry_delay := d;
     app_host := app_host s;
     app_port := app_port s;
     debug := debug s;
     use_parallel_runtime := use_parallel_runtime s;
     graphiti_telemetry_enabled := graphiti_telemetry_enabled s |}.

End Config.
Export Config.

(** ** The outside world *)

(** A Graphiti object is known by its identity: the index of the
    constructor call that created it, so two constructions never give the
    same handle. *)
Definition Handle := nat.

Record LLMConfig := {
  provider : string;
  model : string;
  temperature : Config.float;
  max_tokens : option Z
}.

(** The keyword arguments of [Graphiti(...)]. *)
Record GraphitiArgs := {
  arg_neo4j_uri : string;
  arg_neo4j_user : string;
  arg_neo4j_password : string;
  arg_llm_config : LLMConfig
}.

(** Exceptions.  Those of the external libraries carry their message;
    [RetryError] is tenacity's, wrapping the last attempt's exception;
    [ValidationError] is pydantic's; [HTTPException] is FastAPI's, its detail
    being the given text followed by the string form of [cause]. *)
Inductive exn :=
| ExternalError (msg : string)
| RetryError (last_attempt : exn)
| ValidationError (field : string)
| HTTPException (status_code : Z) (detail : string) (cause : exn).

Inductive outcome (A : Type) :=
| Returns (a : A)
| Raises (e : exn).
Arguments Returns {A} a.
Arguments Raises {A} e.

(** One element of a search result: an object that may or may not have a
    [to_dict] method, and has a string form. *)
Record SearchHit := {
  to_dict : option (gmap string string);
  str : string
}.

(** The external services.  Each field answers the [n]-th call (counted
    from 0) of its kind: [None] for a normal return, or the message of the
    exception raised. *)
Record Engine := {
  Graphiti_call : GraphitiArgs -> nat -> option string;
  build_indices_call : Handle -> nat -> option string;
  search_call : Handle -> string -> option string -> Z -> nat -> outcome (list SearchHit);
  GenerativeModel_call : string -> nat -> option string;
  (* the truth value of the response object, or an exception *)
  generate_content_call : string -> string -> nat -> outcome bool
}.

Inductive Event :=
| EvAttempt (attempt_number : nat)
| EvGraphiti (args : GraphitiArgs) (created : option Handle)
| EvBuildIndices (h : Handle) (ok : bool)
| EvSleep (seconds : Z)
| EvGenerativeModel (name : string)
| EvGenerate (name prompt : string)
| EvSearch (h : Handle) (query : string) (center_node_uuid : option string) (limit : Z).

Definition is_graphiti (ev : Event) : bool :=
  match ev with EvGraphiti _ _ => true | _ => false end.
Definition is_installed (ev : Event) : bool :=
  match ev with EvGraphiti _ (Some _) => true | _ => false end.
Definition is_build (ev : Event) : bool :=
  match ev with EvBuildIndices _ _ => true | _ => false end.
Definition is_attempt (ev : Event) : bool :=
  match ev with EvAttempt _ => true | _ => false end.
Definition is_generative_model (ev : Event) : bool :=
  match ev with EvGenerativeModel _ => true | _ => false end.
Definition is_generate (ev : Event) : bool :=
  match ev with EvGenerate _ _ => true | _ => false end.
Definition is_search (ev : Event) : bool :=
  match ev with EvSearch _ _ _ _ => true | _ => false end.

(** Events are kept newest first. *)
Definition count (p : Event -> bool) (evs : list Event) : nat :=
  length (List.filter p evs).

Definition constructions (evs : list Event) : nat := count is_graphiti evs.
Definition installations (evs : list Event) : nat := count is_installed evs.
Definition attempts (evs : list Event) : nat := count is_attempt evs.

(** The delays slept, oldest first. *)
Fixpoint sleeps_newest_first (evs : list Event) : list Z :=
  match evs with
  | [] => []
  | EvSleep d :: evs' => d :: sleeps_newest_first evs'
  | _ :: evs' => sleeps_newest_first evs'
  end.
Definition delays (evs : list Event) : list Z := rev (sleeps_newest_first evs).

(** The handles on which a [build_indices] call has completed normally. *)
Fixpoint built (evs : list Event) (h : Handle) : bool :=
  match evs with
  | [] => false
  | EvBuildIndices h' true :: evs' => Nat.eqb h h' || built evs' h
  | _ :: evs' => built evs' h
  end.

(** ** Coroutines run to completion: state and exceptions *)

(** A Python call changes the state and either returns or raises; what it
    changed before raising stays changed. *)
Definition M (St A : Type) : Type := St -> St * outcome A.

Definition ret {St A} (a : A) : M St A := fun st => (st, Returns a).
Definition raise {St A} (e : exn) : M St A := fun st => (st, Raises e).
Definition bind {St A B} (m : M St A) (k : A -> M St B) : M St B :=
  fun st =>
    match m st with
    | (st', Returns a) => k a st'
    | (st', Raises e) => (st', Raises e)
    end.
Definition try_except {St A} (body : M St A) (handler : exn -> M St A) : M St A :=
  fun st =>
    match body st with
    | (st', Returns a) => (st', Returns a)
    | (st', Raises e) => handler e st'
    end.

Declare Scope py_scope.
Delimit Scope py_scope with py.
Notation "x <- c ;; k" := (bind c (fun x => k))
  (at level 100, c at next level, right associativity) : py_scope.
Notation "c ;; k" := (bind c (fun _ => k))
  (at level 100, right associativity) : py_scope.
Local Open Scope py_scope.

(** ** tenacity: the [@retry] decorator (library semantics) *)

Module Tenacity.

Inductive stop_policy := stop_after_attempt (max_attempt_number : nat).

(** [stop_after_attempt.__call__]: [attempt_number >= max_attempt_number]. *)
Definition stop (p : stop_policy) (attempt_number : nat) : bool :=
  match p with stop_after_attempt m => (m <=? attempt_number)%nat end.

Record wait_policy := wait_exponential {
  multiplier : Z;
  min : Z;
  max : Z;
  exp_base : Z
}.

(** [wait_exponential.__call__]:
    [exp = exp_base ** (attempt_number - 1); result = multiplier * exp;
     return max(max(0, min), min(result, max))]. *)
Definition wait (p : wait_policy) (attempt_number : nat) : Z :=
  let exp := (exp_base p ^ (Z.of_nat attempt_number - 1))%Z in
  let result := (multiplier p * exp)%Z in
  Z.max (Z.max 0 (min p)) (Z.min result (max p)).

Definition attempts_left (p : stop_policy) (attempt_number : nat) : nat :=
  match p with stop_after_attempt m => (m - attempt_number)%nat end.

End Tenacity.

(** ** app/utils.py *)

Record GraphitiGeminiManager := {
  settings : Settings;
  _graphiti : option Handle
}.

(** What a method of the manager works on: the object and the outside
    world's record of calls. *)
Record World := {
  self : GraphitiGeminiManager;
  events : list Event
}.

Definition emit (ev : Event) (w : World) : World :=
  {| self := self w; events := ev :: events w |}.

Definition set_graphiti (g : option Handle) (w : World) : World :=
  {| self := {| settings := settings (self w); _graphiti := g |};
     events := events w |}.

(** [GraphitiGeminiManager(settings)]. *)
Definition new_manager (s : Settings) : GraphitiGeminiManager :=
  {| settings := s; _graphiti := None |}.

Definition fresh (s : Settings) : World :=
  {| self := new_manager s; events := [] |}.

(** The retry and backoff arguments written in the decorator of
    [initialize_graphiti]. *)
Definition decorator_stop : Tenacity.stop_policy := Tenacity.stop_after_attempt 3.
Definition decorator_wait : Tenacity.wait_policy :=
  Tenacity.wait_exponential 1 4 10 2.

Section Manager.

Variable engine : Engine.

Definition read_graphiti : M World (option Handle) :=
  fun w => (w, Returns (_graphiti (self w))).
Definition write_graphiti (g : option Handle) : M World unit :=
  fun w => (set_graphiti g w, Returns tt).
Definition read_settings : M World Settings :=
  fun w => (w, Returns (settings (self w))).

(** Calling a method on [None] raises [AttributeError]. *)
Definition deref {St} (g : option Handle) : M St Handle :=
  match g with
  | Some h => ret h
  | None => raise (ExternalError "AttributeError")
  end.

(** [Graphiti(...)]: a new object on success. *)
Definition Graphiti (args : GraphitiArgs) : M World Handle :=
  fun w =>
    let n := constructions (events w) in
    match Graphiti_call engine args n with
    | None => (emit (EvGraphiti args (Some n)) w, Returns n)
    | Some msg => (emit (EvGraphiti args None) w, Raises (ExternalError msg))
    end.

(** [await h.build_indices()]. *)
Definition build_indices (h : Handle) : M World unit :=
  fun w =>
    match build_indices_call engine h (count is_build (events w)) with
    | None => (emit (EvBuildIndices h true) w, Returns tt)
    | Some msg => (emit (EvBuildIndices h false) w, Raises (ExternalError msg))
    end.

(** [await h.search(query, center_node_uuid=..., limit=...)]. *)
Definition graphiti_search (h : Handle) (query : string) (center : option string) (limit : Z)
  : M World (list SearchHit) :=
  fun w =>
    (emit (EvSearch h query center limit) w,
     search_call engine h query center limit (count is_search (events w))).

(** [genai.GenerativeModel(name)]; the model object is its name. *)
Definition GenerativeModel (name : string) : M World string :=
  fun w =>
    match GenerativeModel_call engine name (count is_generative_model (events w)) with
    | None => (emit (EvGenerativeModel name) w, Returns name)
    | Some msg => (emit (EvGenerativeModel name) w, Raises (ExternalError msg))
    end.

(** [await model.generate_content_async(prompt)]: the truth value of the
    response. *)
Definition generate_content_async (name prompt : string) : M World bool :=
  fun w =>
    (emit (EvGenerate name prompt) w,
     generate_content_call engine name prompt (count is_generate (events w))).

Definition llm_config_of (s : Settings) : LLMConfig :=
  {| provider := "gemini";
     model := gemini_model s;
     temperature := gemini_temperature s;
     max_tokens := gemini_max_tokens s |}.

Definition graphiti_args_of (s : Settings) : GraphitiArgs :=
  {| arg_neo4j_uri := neo4j_uri s;
     arg_neo4j_user := neo4j_user s;
     arg_neo4j_password := neo4j_password s;
     arg_llm_config := llm_config_of s |}.

(** The body of [initialize_graphiti], one attempt.  The handler of its
    [try] logs and re-raises. *)
Definition initialize_graphiti_body : M World (option Handle) :=
  g <- read_graphiti ;;
  match g with
  | Some _ => ret g
  | None =>
      try_except
        (s <- read_settings ;;
         h <- Graphiti (graphiti_args_of s) ;;
         write_graphiti (Some h) ;;
         g1 <- read_graphiti ;;
         h1 <- deref g1 ;;
         build_indices h1 ;;
         read_graphiti)
        (fun e => raise e)
  end.

(** tenacity's loop around a coroutine: attempt, and on an exception
    either stop with [RetryError] or sleep and attempt again.
    [remaining] is [max_attempt_number - attempt_number]: the loop stops
    when it is 0. *)
Fixpoint retry_from {A} (wait : Tenacity.wait_policy) (remaining attempt_number : nat)
    (fn : M World A) : M World A :=
  fun w =>
    match fn (emit (EvAttempt attempt_number) w) with
    | (w1, Returns a) => (w1, Returns a)
    | (w1, Raises e) =>
        match remaining with
        | O => (w1, Raises (RetryError e))
        | S r =>
            retry_from wait r (S attempt_number) fn
              (emit (EvSleep (Tenacity.wait wait attempt_number)) w1)
        end
    end.

Definition retry {A} (stop : Tenacity.stop_policy) (wait : Tenacity.wait_policy)
    (fn : M World A) : M World A :=
  retry_from wait (Tenacity.attempts_left stop 1) 1 fn.

Definition initialize_graphiti : M World (option Handle) :=
  retry decorator_stop decorator_wait initialize_graphiti_body.

Definition get_graphiti : M World (option Handle) :=
  g <- read_graphiti ;;
  match g with
  | None => initialize_graphiti ;; ret tt
  | Some _ => ret tt
  end ;;
  read_graphiti.

Definition unknown_status : gmap string string :=
  {[ "graphiti" := "unknown"; "neo4j" := "unknown"; "gemini" := "unknown" ]}.

(** The calls of the first [try] block of [health_check]. *)
Definition gemini_probe : M World bool :=
  s <- read_settings ;;
  gm <- GenerativeModel (gemini_model s) ;;
  generate_content_async gm "Hello".

(** The calls of its second [try] block. *)
Definition graphiti_probe : M World unit :=
  graphiti <- get_graphiti ;;
  h <- deref graphiti ;;
  graphiti_search h "health_check" None 1 ;;
  ret tt.

(** [health_check].  In each [try] block the dictionary is written only
    after the last call that can raise, so the handler sees it as it was
    before the block. *)
Definition health_check : M World (gmap string string) :=
  let health_status := unknown_status in
  health_status <-
    try_except
      (response <- gemini_probe ;;
       ret (<["gemini" := if response then "healthy" else "unhealthy"]> health_status))
      (fun e => ret (<["gemini" := "unhealthy"]> health_status)) ;;
  try_except
    (graphiti_probe ;;
     ret (<["neo4j" := "healthy"]> (<["graphiti" := "healthy"]> health_status)))
    (fun e => ret (<["neo4j" := "unhealthy"]> (<["graphiti" := "unhealthy"]> health_status))).

End Manager.

(** ** Coroutines as tasks of the event loop *)

(** The event loop runs one task at a time, and a task keeps running until
    it reaches an [await] that suspends.  [initialize_graphiti] can suspend
    in two places: in [await self._graphiti.build_indices()] and in the
    sleep tenacity does between two attempts.  Everything between two such
    points is one indivisible block. *)
Module Async.

Inductive entry := call_initialize_graphiti | call_get_graphiti.

Inductive pc :=
| Created
| InBuildIndices (attempt_number : nat) (h : Handle)
| InSleep (attempt_number : nat)
| Done (r : outcome (option Handle)).

Record Task := { entry_point : entry; at_pc : pc }.

Record System := { world : World; tasks : list Task }.

Section Loop.

Variable engine : Engine.

(** The attempt raised [e]: tenacity stops, or sleeps before the next. *)
Definition after_raise (n : nat) (e : exn) (w : World) : World * pc :=
  if Tenacity.stop decorator_stop n
  then (w, Done (Raises (RetryError e)))
  else (emit (EvSleep (Tenacity.wait decorator_wait n)) w, InSleep n).

(** [initialize_graphiti] returned [r]; [get_graphiti] drops it and
    returns the field. *)
Definition after_return (en : entry) (r : option Handle) (w : World) : World * pc :=
  match en with
  | call_initialize_graphiti => (w, Done (Returns r))
  | call_get_graphiti => (w, Done (Returns (_graphiti (self w))))
  end.

(** Attempt [n] of the body, up to its first suspension. *)
Definition begin_attempt (en : entry) (n : nat) (w : World) : World * pc :=
  let w0 := emit (EvAttempt n) w in
  match _graphiti (self w0) with
  | Some h => after_return en (Some h) w0
  | None =>
      match Graphiti engine (graphiti_args_of (settings (self w0))) w0 with
      | (w1, Returns h) => (set_graphiti (Some h) w1, InBuildIndices n h)
      | (w1, Raises e) => after_raise n e w1
      end
  end.

Definition resume (t : Task) (w : World) : option (World * pc) :=
  match at_pc t with
  | Created =>
      match entry_point t, _graphiti (self w) with
      | call_get_graphiti, Some h => Some (w, Done (Returns (Some h)))
      | en, _ => Some (begin_attempt en 1 w)
      end
  | InBuildIndices n h =>
      match build_indices engine h w with
      | (w1, Returns _) => Some (after_return (entry_point t) (_graphiti (self w1)) w1)
      | (w1, Raises e) => Some (after_raise n e w1)
      end
  | InSleep n => Some (begin_attempt (entry_point t) (S n) w)
  | Done _ => None
  end.

(** The loop resumes task [i]. *)
Definition run (i : nat) (sys : System) : option System :=
  match tasks sys !! i with
  | None => None
  | Some t =>
      match resume t (world sys) with
      | None => None
      | Some (w, p) =>
          Some {| world := w;
                  tasks := <[i := {| entry_point := entry_point t; at_pc := p |}]> (tasks sys) |}
      end
  end.

Fixpoint run_schedule (sch : list nat) (sys : System) : option System :=
  match sch with
  | [] => Some sys
  | i :: sch' =>
      match run i sys with
      | None => None
      | Some sys' => run_schedule sch' sys'
      end
  end.

Definition step (sys sys' : System) : Prop := exists i, run i sys = Some sys'.

(** One task alone, resumed until it is done. *)
Fixpoint run_alone (fuel : nat) (t : Task) (w : World) : option (World * outcome (option Handle)) :=
  match at_pc t with
  | Done r => Some (w, r)
  | _ =>
      match fuel with
      | O => None
      | S fuel' =>
          match resume t w with
          | None => None
          | Some (w1, p) => run_alone fuel' {| entry_point := entry_point t; at_pc := p |} w1
          end
      end
  end.

End Loop.

(** [n] callers started together on a new manager. *)
Definition spawn (s : Settings) (entries : list entry) : System :=
  {| world := fresh s;
     tasks := List.map (fun en => {| entry_point := en; at_pc := Created |}) entries |}.

Definition is_done (t : Task) : bool :=
  match at_pc t with Done _ => true | _ => false end.

Definition all_done (sys : System) : bool := forallb is_done (tasks sys).

Definition returned (t : Task) : option (option Handle) :=
  match at_pc t with Done (Returns r) => Some r | _ => None end.

End Async.

(** ** app/models.py and the search endpoint of app/main.py *)

Module SearchRequest.
Record t := {
  query : string;
  limit : Z;
  center_node_uuid : option string
}.
(** [Field(default=10, ge=1, le=100)] *)
Definition limit_ok (r : t) : bool := (1 <=? limit r)%Z && (limit r <=? 100)%Z.
End SearchRequest.

Module SearchResponse.
Record t := {
  results : list (gmap string string);
  total_count : Z;
  query : string
}.
End SearchResponse.

(** What the endpoint collects for each hit: a dictionary or a string. *)
Inductive Serializable :=
| of_dict (d : gmap string string)
| of_str (s : string).

(** The process: the module-level [graphiti_manager] of [app/utils.py] and
    the outside world. *)
Record Process := {
  graphiti_manager : option GraphitiGeminiManager;
  outside : list Event
}.

Section Api.

Variable engine : Engine.
(** [app.config.settings] *)
Variable app_settings : Settings.

Definition get_manager : M Process unit :=
  fun p =>
    match graphiti_manager p with
    | None =>
        ({| graphiti_manager := Some (new_manager app_settings); outside := outside p |},
         Returns tt)
    | Some _ => (p, Returns tt)
    end.

(** A method call on the object the global refers to. *)
Definition on_manager {A} (m : M World A) : M Process A :=
  fun p =>
    match graphiti_manager p with
    | None => (p, Raises (ExternalError "AttributeError"))
    | Some mgr =>
        match m {| self := mgr; events := outside p |} with
        | (w, r) => ({| graphiti_manager := Some (self w); outside := events w |}, r)
        end
    end.

(** Truth value of an [Optional[str]]: [None] and the empty string are
    false. *)
Definition truthy (o : option string) : bool :=
  match o with
  | Some s => negb (String.eqb s "")
  | None => false
  end.

(** The loop body: [to_dict()] when the hit has it, else [str(result)]. *)
Definition serialize (result : SearchHit) : Serializable :=
  match to_dict result with
  | Some d => of_dict d
  | None => of_str (str result)
  end.

Definition serialize_all (results : list SearchHit) : list Serializable :=
  fold_left (fun serializable_results result => (serializable_results ++ [serialize result])%list)
    results [].

(** pydantic's validation of one element of a [List[Dict[str, Any]]]
    field: a dictionary is taken as it is, anything else goes through
    [dict(v)], which for a string succeeds only when it is empty. *)
Definition dict_validator (v : Serializable) : option (gmap string string) :=
  match v with
  | of_dict d => Some d
  | of_str s => if String.eqb s "" then Some ∅ else None
  end.

Fixpoint validate_results (vs : list Serializable) : option (list (gmap string string)) :=
  match vs with
  | [] => Some []
  | v :: vs' =>
      match dict_validator v, validate_results vs' with
      | Some d, Some ds => Some (d :: ds)
      | _, _ => None
      end
  end.

(** [SearchResponse(results=..., total_count=..., query=...)] *)
Definition new_SearchResponse {St} (rs : list Serializable) (n : Z) (q : string)
  : M St SearchResponse.t :=
  match validate_results rs with
  | Some ds =>
      ret {| SearchResponse.results := ds;
             SearchResponse.total_count := n;
             SearchResponse.query := q |}
  | None => raise (ValidationError "results")
  end.

Definition search_graph (search : SearchRequest.t) : M Process SearchResponse.t :=
  try_except
    (get_manager ;;
     graphiti <- on_manager (get_graphiti engine) ;;
     h <- deref graphiti ;;
     results <-
       (if truthy (SearchRequest.center_node_uuid search)
        then on_manager (graphiti_search engine h (SearchRequest.query search)
                           (SearchRequest.center_node_uuid search)
                           (SearchRequest.limit search))
        else on_manager (graphiti_search engine h (SearchRequest.query search)
                           None (SearchRequest.limit search))) ;;
     let serializable_results := serialize_all results in
     new_SearchResponse serializable_results (Z.of_nat (length results))
       (SearchRequest.query search))
    (fun e => raise (HTTPException 500 "Search failed: " e)).

End Api.

(** ** Vocabulary of the statements *)

(** A call a client of the manager can make. *)
Inductive Call := initialize_call | get_call | health_call.

Definition perform (engine : Engine) (c : Call) (w : World) : World :=
  match c with
  | initialize_call => fst (initialize_graphiti engine w)
  | get_call => fst (get_graphiti engine w)
  | health_call => fst (health_check engine w)
  end.

Definition perform_all (engine : Engine) (cs : list Call) (w : World) : World :=
  fold_left (fun w c => perform engine c w) cs w.

(** The same manager with other settings. *)
Definition with_settings (s : Settings) (w : World) : World :=
  {| self := {| settings := s; _graphiti := _graphiti (self w) |};
     events := events w |}.

(** The events a call added, newest first. *)
Definition added (before after : World) : list Event :=
  take (length (events after) - length (events before)) (events after).

(** Mock engines: the constructor raises on the calls [ctor_fails]
    selects, [build_indices] on those [build_fails] selects; searches find
    [hits]; the model answers [response]. *)
Definition mock (ctor_fails build_fails : nat -> bool) (hits : outcome (list SearchHit))
    (response : outcome bool) : Engine :=
  {| Graphiti_call := fun _ n => if ctor_fails n then Some "connection refused" else None;
     build_indices_call := fun _ n => if build_fails n then Some "index build failed" else None;
     search_call := fun _ _ _ _ _ => hits;
     GenerativeModel_call := fun _ _ => None;
     generate_content_call := fun _ _ _ => response |}.

Definition never : nat -> bool := fun _ => false.
Definition always : nat -> bool := fun _ => true.
Definition first (k : nat) : nat -> bool := fun n => (n <? k)%nat.

Definition reliable : Engine := mock never never (Returns []) (Returns true).

Definition test_settings : Settings := default_settings "google-key" "openai-key" "secret".

Definition status_of_bool (b : bool) : string := if b then "healthy" else "unhealthy".

Definition succeeded {A} (r : outcome A) : bool :=
  match r with Returns _ => true | Raises _ => false end.

Definition has_handle (w : World) : bool :=
  match _graphiti (self w) with Some _ => true | None => false end.

(** The four ways through the body of [initialize_graphiti]: the early
    return, the constructor raising, [build_indices] raising after the
    handle was stored, and the normal return. *)
Inductive attempt_of (e : Engine) (w : World) : World * outcome (option Handle) -> Prop :=
| attempt_ready h :
    _graphiti (self w) = Some h ->
    attempt_of e w (w, Returns (Some h))
| attempt_constructor_raises msg :
    _graphiti (self w) = None ->
    Graphiti_call e (graphiti_args_of (settings (self w))) (constructions (events w)) = Some msg ->
    attempt_of e w
      (emit (EvGraphiti (graphiti_args_of (settings (self w))) None) w,
       Raises (ExternalError msg))
| attempt_build_raises msg :
    _graphiti (self w) = None ->
    Graphiti_call e (graphiti_args_of (settings (self w))) (constructions (events w)) = None ->
    build_indices_call e (constructions (events w)) (count is_build (events w)) = Some msg ->
    attempt_of e w
      (emit (EvBuildIndices (constructions (events w)) false)
         (set_graphiti (Some (constructions (events w)))
            (emit (EvGraphiti (graphiti_args_of (settings (self w)))
                     (Some (constructions (events w)))) w)),
       Raises (ExternalError msg))
| attempt_succeeds :
    _graphiti (self w) = None ->
    Graphiti_call e (graphiti_args_of (settings (self w))) (constructions (events w)) = None ->
    build_indices_call e (constructions (events w)) (count is_build (events w)) = None ->
    attempt_of e w
      (emit (EvBuildIndices (constructions (events w)) true)
         (set_graphiti (Some (constructions (events w)))
            (emit (EvGraphiti (graphiti_args_of (settings (self w)))
                     (Some (constructions (events w)))) w)),
       Returns (Some (constructions (events w)))).

(** Two states that differ at most in settings the constructor is not
    given. *)
Definition agree (w w' : World) : Prop :=
  _graphiti (self w) = _graphiti (self w')
  /\ events w = events w'
  /\ graphiti_args_of (settings (self w)) = graphiti_args_of (settings (self w')).

(** The mock engines of the retry tests: the constructor raises on its
    first [k] calls and then returns, with index builds that succeed; or it
    raises on every call. *)
Definition fails_then_succeeds (e : Engine) (s : Settings) (k : nat) : Prop :=
  (forall i, (i < k)%nat -> Graphiti_call e (graphiti_args_of s) i <> None)
  /\ Graphiti_call e (graphiti_args_of s) k = None
  /\ (forall h n, build_indices_call e h n = None).

Definition always_fails (e : Engine) (s : Settings) : Prop :=
  forall i, Graphiti_call e (graphiti_args_of s) i <> None.

(** The retry bound with the maximum read from the configuration, as the
    specification words it. *)
Definition retry_bound_as_stated : Prop :=
  forall (e : Engine) (s : Settings),
    (forall k, (Z.of_nat k < max_retries s)%Z -> fails_then_succeeds e s k ->
       let res := initialize_graphiti e (fresh s) in
       succeeded (snd res) = true /\ attempts (events (fst res)) = (k + 1)%nat)
    /\ (always_fails e s ->
       let res := initialize_graphiti e (fresh s) in
       succeeded (snd res) = false
       /\ Z.of_nat (attempts (events (fst res))) = max_retries s).

(** What must hold of a task for the state it runs in: a task waiting in
    [build_indices] waits on the stored handle, and a task that returned
    returned the stored handle. *)
Definition task_ok (w : World) (t : Async.Task) : Prop :=
  match Async.at_pc t with
  | Async.InBuildIndices _ h => _graphiti (self w) = Some h
  | Async.Done (Returns r) => r = _graphiti (self w) /\ is_Some r
  | _ => True
  end.

Definition invariant (s : Settings) (sys : Async.System) : Prop :=
  let w := Async.world sys in
  settings (self w) = s
  /\ installations (events w) = (if has_handle w then 1 else 0)%nat
  /\ Forall (task_ok w) (Async.tasks sys).



(** What a caller that entered through [en] gets from a finished
    [initialize_graphiti]: [get_graphiti] returns the stored field instead
    of the value returned to it. *)
Definition as_seen_by (en : Async.entry) (res : World * outcome (option Handle))
  : World * outcome (option Handle) :=
  match en, snd res with
  | Async.call_get_graphiti, Returns _ => (fst res, Returns (_graphiti (self (fst res))))
  | _, _ => res
  end.

(** The first two statements of every endpoint: the manager, then its
    handle. *)
Definition obtain_handle (e : Engine) (s : Settings) : M Process (option Handle) :=
  get_manager s ;; on_manager (get_graphiti e).

Definition new_process : Process := {| graphiti_manager := None; outside := [] |}.

(** Three hits, the second of which has no [to_dict]. *)
Definition hits_with_a_plain_one : list SearchHit :=
  [ {| to_dict := Some {[ "uuid" := "e1" ]}; str := "EntityEdge(e1)" |};
    {| to_dict := None; str := "EntityEdge(e2)" |};
    {| to_dict := Some {[ "uuid" := "e3" ]}; str := "EntityEdge(e3)" |} ].

Definition hits_with_to_dict : list SearchHit :=
  [ {| to_dict := Some {[ "uuid" := "e1" ]}; str := "EntityEdge(e1)" |};
    {| to_dict := Some {[ "uuid" := "e2" ]}; str := "EntityEdge(e2)" |};
    {| to_dict := Some {[ "uuid" := "e3" ]}; str := "EntityEdge(e3)" |} ].

Definition scenario_request : SearchRequest.t :=
  {| SearchRequest.query := "who works where";
     SearchRequest.limit := 10;
     SearchRequest.center_node_uuid := None |}.

(** ** The rest of app/config.py: building the settings *)

(** What the environment and the [.env] file supply for each field, already
    read as a value of the field's type; [None] when nothing is supplied. *)
Record SettingsSource := {
  src_google_api_key : option string;
  src_openai_api_key : option string;
  src_neo4j_uri : option string;
  src_neo4j_user : option string;
  src_neo4j_password : option string;
  src_gemini_model : option string;
  src_gemini_temperature : option Config.float;
  src_gemini_max_tokens : option Z;
  src_semaphore_limit : option Z;
  src_max_retries : option Z;
  src_retry_delay : option Config.float;
  src_app_host : option string;
  src_app_port : option Z;
  src_debug : option bool;
  src_use_parallel_runtime : option bool;
  src_graphiti_telemetry_enabled : option bool
}.

(** A field without default: absent it is an error, present it goes
    through [validate_required_keys]. *)
Definition required_field (name : string) (v : option string) : list string + string :=
  match v with
  | None => inl [name]
  | Some x =>
      match validate_required_keys x with
      | Some y => inr y
      | None => inl [name]
      end
  end.

Definition field_errors {A} (r : list string + A) : list string :=
  match r with inl errs => errs | inr _ => [] end.

(** [Settings()]: the settings, or the names of the fields in error, in the
    order of the class. *)
Definition new_Settings (src : SettingsSource) : list string + Settings :=
  let google := required_field "google_api_key" (src_google_api_key src) in
  let openai := required_field "openai_api_key" (src_openai_api_key src) in
  let password := required_field "neo4j_password" (src_neo4j_password src) in
  match google, openai, password with
  | inr g, inr o, inr p =>
      inr {| google_api_key := g;
             openai_api_key := o;
             neo4j_uri := default "bolt://neo4j:7687" (src_neo4j_uri src);
             neo4j_user := default "neo4j" (src_neo4j_user src);
             neo4j_password := p;
             gemini_model := default "gemini-1.5-pro" (src_gemini_model src);
             gemini_temperature :=
               default (QArith_base.Qmake 1 10) (src_gemini_temperature src);
             gemini_max_tokens := src_gemini_max_tokens src;
             semaphore_limit := default 5%Z (src_semaphore_limit src);
             max_retries := default 3%Z (src_max_retries src);
             retry_delay := default (QArith_base.Qmake 1 1) (src_retry_delay src);
             app_host := default "0.0.0.0" (src_app_host src);
             app_port := default 8000%Z (src_app_port src);
             debug := default false (src_debug src);
             use_parallel_runtime := default false (src_use_parallel_runtime src);
             graphiti_telemetry_enabled :=
               default false (src_graphiti_telemetry_enabled src) |}
  | _, _, _ => inl (field_errors google ++ field_errors openai ++ field_errors password)%list
  end.

Definition only_required (google openai password : string) : SettingsSource :=
  {| src_google_api_key := Some google;
     src_openai_api_key := Some openai;
     src_neo4j_uri := None;
     src_neo4j_user := None;
     src_neo4j_password := Some password;
     src_gemini_model := None;
     src_gemini_temperature := None;
     src_gemini_max_tokens := None;
     src_semaphore_limit := None;
     src_max_retries := None;
     src_retry_delay := None;
     src_app_host := None;
     src_app_port := None;
     src_debug := None;
     src_use_parallel_runtime := None;
     src_graphiti_telemetry_enabled := None |}.

(** ** The rest of app/models.py *)

Module EpisodeRequest.
Record t := {
  name : string;
  episode_body : string;
  source_description : option string;
  reference_time : option string
}.
End EpisodeRequest.

Module EpisodeResponse.
Record t := {
  success : bool;
  message : string;
  episode_name : string
}.
End EpisodeResponse.

Module HealthResponse.
Record t := {
  status : string;
  services : gmap string string;
  version : string
}.
End HealthResponse.

Module StatsResponse.
Record t := {
  nodes_count : Z;
  edges_count : Z;
  episodes_count : Z;
  graph_status : string
}.
End StatsResponse.

(** ** The rest of app/main.py *)

(** [graphiti.add_episode] is one more external call: its oracle answers
    the [n]-th call, and the calls made are recorded beside the process. *)
Definition Ingest : Type := Handle -> EpisodeRequest.t -> nat -> option string.

Record Service := {
  process : Process;
  ingested : list (Handle * EpisodeRequest.t * bool)
}.

Section Endpoints.

Variable engine : Engine.
Variable ingest : Ingest.
Variable app_settings : Settings.

Definition in_process {A} (m : M Process A) : M Service A :=
  fun sv =>
    match m (process sv) with
    | (p, r) => ({| process := p; ingested := ingested sv |}, r)
    end.

(** [await h.add_episode(name=..., episode_body=..., source_description=...,
    reference_time=...)] *)
Definition graphiti_add_episode (h : Handle) (name episode_body : string)
    (source_description reference_time : option string) : M Service unit :=
  fun sv =>
    let call := {| EpisodeRequest.name := name;
                   EpisodeRequest.episode_body := episode_body;
                   EpisodeRequest.source_description := source_description;
                   EpisodeRequest.reference_time := reference_time |} in
    match ingest h call (length (ingested sv)) with
    | None =>
        ({| process := process sv; ingested := (h, call, true) :: ingested sv |}, Returns tt)
    | Some msg =>
        ({| process := process sv; ingested := (h, call, false) :: ingested sv |},
         Raises (ExternalError msg))
    end.

(** The startup half of [lifespan]; its handler logs and re-raises. *)
Definition lifespan_startup : M Process unit :=
  try_except
    (get_manager app_settings ;;
     on_manager (initialize_graphiti engine) ;;
     ret tt)
    (fun e => raise e).

(** [GET /health].  The detail of its error has no exception text
    appended, which is the string form of an exception with an empty
    message. *)
Definition health_endpoint : M Process HealthResponse.t :=
  try_except
    (get_manager app_settings ;;
     services_status <- on_manager (health_check engine) ;;
     let overall_status :=
       if bool_decide (map_Forall (fun _ status => status = "healthy") services_status)
       then "healthy" else "unhealthy" in
     ret {| HealthResponse.status := overall_status;
            HealthResponse.services := services_status;
            HealthResponse.version := "1.0.0" |})
    (fun e => raise (HTTPException 500 "Health check failed" (ExternalError ""))).

(** [POST /episodes] *)
Definition add_episode (episode : EpisodeRequest.t) : M Service EpisodeResponse.t :=
  try_except
    (in_process (get_manager app_settings) ;;
     graphiti <- in_process (on_manager (get_graphiti engine)) ;;
     h <- deref graphiti ;;
     graphiti_add_episode h (EpisodeRequest.name episode)
       (EpisodeRequest.episode_body episode)
       (EpisodeRequest.source_description episode)
       (EpisodeRequest.reference_time episode) ;;
     ret {| EpisodeResponse.success := true;
            EpisodeResponse.message := "Episode added successfully";
            EpisodeResponse.episode_name := EpisodeRequest.name episode |})
    (fun e => raise (HTTPException 500 "Failed to add episode: " e)).

(** [GET /stats] *)
Definition get_graph_stats : M Process StatsResponse.t :=
  try_except
    (get_manager app_settings ;;
     graphiti <- on_manager (get_graphiti engine) ;;
     ret {| StatsResponse.nodes_count := 0;
            StatsResponse.edges_count := 0;
            StatsResponse.episodes_count := 0;
            StatsResponse.graph_status := "active" |})
    (fun e => raise (HTTPException 500 "Failed to get statistics: " e)).

(** A request to one of the four endpoints of the service. *)
Inductive Request :=
| GetHealth
| PostEpisodes (episode : EpisodeRequest.t)
| PostSearch (search : SearchRequest.t)
| GetStats.

(** The state after the request was answered, whatever the answer. *)
Definition serve (r : Request) (sv : Service) : Service :=
  match r with
  | GetHealth => fst (in_process health_endpoint sv)
  | PostEpisodes episode => fst (add_episode episode sv)
  | PostSearch search => fst (in_process (search_graph engine app_settings search) sv)
  | GetStats => fst (in_process get_graph_stats sv)
  end.

Definition serve_all (rs : list Request) (sv : Service) : Service :=
  fold_left (fun sv r => serve r sv) rs sv.

End Endpoints.

(** ** Vocabulary of the further statements *)

(** The manager an endpoint works on: the global one, created from the
    application settings when there is none yet. *)
Definition world_of (s : Settings) (p : Process) : World :=
  {| self := default (new_manager s) (graphiti_manager p); events := outside p |}.

Definition process_of (w : World) : Process :=
  {| graphiti_manager := Some (self w); outside := events w |}.

Definition new_service : Service := {| process := new_process; ingested := [] |}.

(** The events that are calls to the Graphiti engine made while
    initializing. *)
Definition lifecycle_event (ev : Event) : bool :=
  match ev with
  | EvAttempt _ | EvGraphiti _ _ | EvBuildIndices _ _ | EvSleep _ => true
  | _ => false
  end.

(** How many more times the event loop can resume a task. *)
Definition resumptions_left (t : Async.Task) : nat :=
  match Async.at_pc t with
  | Async.Created => 6
  | Async.InBuildIndices n _ => 2 * (3 - n) + 1
  | Async.InSleep n => 2 * (3 - n)
  | Async.Done _ => 0
  end.

(** The attempt a task is in is within the bound of the decorator. *)
Definition task_bounded (t : Async.Task) : Prop :=
  match Async.at_pc t with
  | Async.InBuildIndices n _ => (1 <= n <= 3)%nat
  | Async.InSleep n => (1 <= n < 3)%nat
  | _ => True
  end.

(** The attempts a task has started. *)
Definition attempts_started (t : Async.Task) : nat :=
  match Async.at_pc t with
  | Async.Created => 0
  | Async.InBuildIndices n _ => n
  | Async.InSleep n => n
  | Async.Done _ => 3
  end.

(** The attempts of all tasks are within the bound, and every constructor
    call belongs to an attempt some task has started. *)
Definition within_bounds (sys : Async.System) : Prop :=
  Forall task_bounded (Async.tasks sys)
  /\ (constructions (events (Async.world sys))
      <= sum_list_with attempts_started (Async.tasks sys))%nat.

(** The request without its center node. *)
Definition without_center (search : SearchRequest.t) : SearchRequest.t :=
  {| SearchRequest.query := SearchRequest.query search;
     SearchRequest.limit := SearchRequest.limit search;
     SearchRequest.center_node_uuid := None |}.

(** The center node the engine is given. *)
Definition center_given (search : SearchRequest.t) : option string :=
  if truthy (SearchRequest.center_node_uuid search)
  then SearchRequest.center_node_uuid search else None.

Definition search_failed (cause : exn) : exn := HTTPException 500 "Search failed: " cause.

Definition absent_or_empty (v : option string) : bool :=
  match v with
  | None => true
  | Some x => String.eqb x ""
  end.

(** * Properties *)

Local Open Scope nat_scope.

(** ** Event lists *)

Lemma count_app p (a b : list Event) : count p (a ++ b) = count p a + count p b.
Proof. unfold count. rewrite List.filter_app, length_app. reflexivity. Qed.

Lemma count_cons p ev (evs : list Event) :
  count p (ev :: evs) = (if p ev then 1 else 0) + count p evs.
Proof. unfold count. simpl. destruct (p ev); reflexivity. Qed.

Lemma sleeps_app (a b : list Event) :
  sleeps_newest_first (a ++ b) = (sleeps_newest_first a ++ sleeps_newest_first b)%list.
Proof.
  induction a as [|ev a IH]; [reflexivity|].
  destruct ev; simpl; rewrite ?IH; reflexivity.
Qed.

Lemma added_app (new : list Event) w w' :
  events w' = (new ++ events w)%list -> added w w' = new.
Proof.
  intros H. unfold added. rewrite H, length_app.
  replace (length new + length (events w) - length (events w)) with (length new) by lia.
  apply take_app_length.
Qed.

(** ** One attempt *)

Section Sequential.

Variable e : Engine.

Lemma body_cases w : attempt_of e w (initialize_graphiti_body e w).
Proof.
  unfold initialize_graphiti_body, bind, read_graphiti.
  destruct (_graphiti (self w)) as [h|] eqn:H.
  - now apply attempt_ready.
  - unfold try_except, read_settings, Graphiti.
    destruct (Graphiti_call e _ _) as [msg|] eqn:HG.
    + now apply attempt_constructor_raises.
    + cbn. unfold build_indices. cbn.
      change (length (List.filter is_build (events w))) with (count is_build (events w)).
      destruct (build_indices_call e _ _) as [msg|] eqn:HB.
      * now apply attempt_build_raises.
      * now apply attempt_succeeds.
Qed.

Lemma body_ready w h :
  _graphiti (self w) = Some h ->
  initialize_graphiti_body e w = (w, Returns (Some h)).
Proof.
  intros H. destruct (body_cases w); congruence.
Qed.

(** What any attempt does to the manager and to the event list. *)
Lemma body_effect w :
  let r := initialize_graphiti_body e w in
  settings (self (fst r)) = settings (self w)
  /\ (forall h, _graphiti (self w) = Some h -> _graphiti (self (fst r)) = Some h)
  /\ (forall v, snd r = Returns v -> v = _graphiti (self (fst r)) /\ is_Some v)
  /\ (forall x, snd r = Raises x -> exists msg, x = ExternalError msg)
  /\ exists new,
       events (fst r) = (new ++ events w)%list
       /\ sleeps_newest_first new = []
       /\ attempts new = 0
       /\ constructions new <= 1
       /\ installations new = (if has_handle w then 0
                               else if has_handle (fst r) then 1 else 0).
Proof.
  destruct (body_cases w) as [h H|msg H HG|msg H HG HB|H HG HB];
    unfold has_handle; cbn; rewrite H;
    (split; [reflexivity|]); (split; [congruence|]);
    (split; [intros v [= <-]; eauto|]); (split; [intros x [= <-]; eauto|]).
  - exists []. repeat split; try reflexivity; cbn; lia.
  - eexists [_]. repeat split; try reflexivity; cbn; lia.
  - eexists [_; _]. repeat split; try reflexivity; cbn; lia.
  - eexists [_; _]. repeat split; try reflexivity; cbn; lia.
Qed.

Lemma has_handle_Some w h : _graphiti (self w) = Some h -> has_handle w = true.
Proof. unfold has_handle. now intros ->. Qed.

Lemma has_handle_true w : has_handle w = true -> exists h, _graphiti (self w) = Some h.
Proof. unfold has_handle. destruct (_graphiti (self w)); [eauto | discriminate]. Qed.

(** What the retry loop does, for any backoff policy, from attempt [n]
    with [r] more attempts allowed. *)
Lemma retry_from_effect wt r : forall n w,
  let res := retry_from wt r n (initialize_graphiti_body e) w in
  settings (self (fst res)) = settings (self w)
  /\ (forall h, _graphiti (self w) = Some h -> _graphiti (self (fst res)) = Some h)
  /\ (forall v, snd res = Returns v -> v = _graphiti (self (fst res)) /\ is_Some v)
  /\ (forall x, snd res = Raises x -> exists msg, x = RetryError (ExternalError msg))
  /\ exists new k,
       events (fst res) = (new ++ events w)%list
       /\ k <= r
       /\ (succeeded (snd res) = false -> k = r)
       /\ sleeps_newest_first new = rev (List.map (Tenacity.wait wt) (seq n k))
       /\ attempts new = S k
       /\ constructions new <= S k
       /\ installations new = (if has_handle w then 0
                               else if has_handle (fst res) then 1 else 0).
Proof.
  induction r as [|r IH]; intros n w; cbn zeta; simpl retry_from.
  - pose proof (body_effect (emit (EvAttempt n) w)) as HB. cbn zeta in HB.
    destruct (initialize_graphiti_body e (emit (EvAttempt n) w)) as [w1 [a|x]];
      cbn [fst snd] in *;
      destruct HB as (Hs & Hh & Hv & Hx & new & Hev & Hsl & Hat & Hco & Hin);
      (split; [exact Hs|]); (split; [exact Hh|]).
    + split; [exact Hv|]. split; [discriminate|].
      exists (new ++ [EvAttempt n])%list, 0.
      rewrite <- app_assoc. cbn [app]. split; [exact Hev|].
      rewrite sleeps_app, Hsl. unfold attempts, constructions, installations in *.
      rewrite !count_app, Hat, Hin. cbn. repeat split; try lia; try discriminate.
      change (has_handle (emit (EvAttempt n) w)) with (has_handle w). lia.
    + split; [discriminate|].
      split; [intros y [= <-]; destruct (Hx x eq_refl) as [msg ->]; eauto|].
      exists (new ++ [EvAttempt n])%list, 0.
      rewrite <- app_assoc. cbn [app]. split; [exact Hev|].
      rewrite sleeps_app, Hsl. unfold attempts, constructions, installations in *.
      rewrite !count_app, Hat, Hin. cbn. repeat split; try lia.
      change (has_handle (emit (EvAttempt n) w)) with (has_handle w). lia.
  - pose proof (body_effect (emit (EvAttempt n) w)) as HB. cbn zeta in HB.
    destruct (initialize_graphiti_body e (emit (EvAttempt n) w)) as [w1 [a|x]];
      cbn [fst snd] in *;
      destruct HB as (Hs & Hh & Hv & Hx & new & Hev & Hsl & Hat & Hco & Hin).
    + split; [exact Hs|]. split; [exact Hh|].
      split; [exact Hv|]. split; [discriminate|].
      exists (new ++ [EvAttempt n])%list, 0.
      rewrite <- app_assoc. cbn [app]. split; [exact Hev|].
      rewrite sleeps_app, Hsl. unfold attempts, constructions, installations in *.
      rewrite !count_app, Hat, Hin. cbn. repeat split; try lia; try discriminate.
      change (has_handle (emit (EvAttempt n) w)) with (has_handle w). lia.
    + specialize (IH (S n) (emit (EvSleep (Tenacity.wait wt n)) w1)). cbn zeta in IH.
      destruct (retry_from wt r (S n) (initialize_graphiti_body e)
                  (emit (EvSleep (Tenacity.wait wt n)) w1)) as [w2 o].
      cbn [fst snd] in *.
      destruct IH as (Hs' & Hh' & Hv' & Hx' & new' & k & Hev' & Hk & Hfail & Hsl' & Hat' & Hco' & Hin').
      split; [exact (eq_trans Hs' Hs)|].
      split; [intros h Hw; apply Hh'; exact (Hh h Hw)|].
      split; [exact Hv'|]. split; [exact Hx'|].
      exists (new' ++ EvSleep (Tenacity.wait wt n) :: new ++ [EvAttempt n])%list, (S k).
      split.
      { rewrite Hev'. cbn. rewrite Hev. cbn.
        rewrite <- !app_assoc. cbn. rewrite <- !app_assoc. reflexivity. }
      split; [lia|]. split; [intros Hf; f_equal; auto|].
      split.
      { rewrite sleeps_app. cbn. rewrite sleeps_app, Hsl, Hsl'. cbn.
        reflexivity. }
      unfold attempts, constructions, installations in *.
      rewrite !count_app, !count_cons, !count_app, Hat, Hat', Hin, Hin'. cbn.
      split; [lia|]. split; [lia|].
      change (has_handle (emit (EvSleep (Tenacity.wait wt n)) w1)) with (has_handle w1).
      change (has_handle (emit (EvAttempt n) w)) with (has_handle w).
      destruct (has_handle w) eqn:Hw.
      * apply has_handle_true in Hw as [h Hw].
        rewrite (has_handle_Some w1 h); [lia|]. apply Hh. exact Hw.
      * destruct (has_handle w1) eqn:Hw1; [|lia].
        apply has_handle_true in Hw1 as [h Hw1].
        rewrite (has_handle_Some w2 h); [lia|]. apply Hh'. exact Hw1.
Qed.

Lemma initialize_graphiti_effect w :
  let res := initialize_graphiti e w in
  settings (self (fst res)) = settings (self w)
  /\ (forall h, _graphiti (self w) = Some h -> _graphiti (self (fst res)) = Some h)
  /\ (forall v, snd res = Returns v -> v = _graphiti (self (fst res)) /\ is_Some v)
  /\ (forall x, snd res = Raises x -> exists msg, x = RetryError (ExternalError msg))
  /\ exists new k,
       events (fst res) = (new ++ events w)%list
       /\ k <= 2
       /\ (succeeded (snd res) = false -> k = 2)
       /\ sleeps_newest_first new = rev (List.map (Tenacity.wait decorator_wait) (seq 1 k))
       /\ attempts new = S k
       /\ constructions new <= S k
       /\ installations new = (if has_handle w then 0
                               else if has_handle (fst res) then 1 else 0).
Proof. exact (retry_from_effect decorator_wait 2 1 w). Qed.

Lemma initialize_graphiti_ready w h :
  _graphiti (self w) = Some h ->
  initialize_graphiti e w = (emit (EvAttempt 1) w, Returns (Some h)).
Proof.
  intros H. unfold initialize_graphiti, retry. simpl.
  rewrite (body_ready (emit (EvAttempt 1) w) h H). reflexivity.
Qed.

Lemma get_graphiti_ready w h :
  _graphiti (self w) = Some h -> get_graphiti e w = (w, Returns (Some h)).
Proof.
  intros H. unfold get_graphiti, bind, read_graphiti. rewrite H. cbn.
  rewrite H. reflexivity.
Qed.

Lemma get_graphiti_lazy w :
  _graphiti (self w) = None ->
  get_graphiti e w =
    match initialize_graphiti e w with
    | (w', Returns _) => (w', Returns (_graphiti (self w')))
    | (w', Raises x) => (w', Raises x)
    end.
Proof.
  intros H. unfold get_graphiti, bind, read_graphiti. rewrite H.
  destruct (initialize_graphiti e w) as [w' [v|x]]; reflexivity.
Qed.

(** [get_graphiti] returns the stored handle, never [None]. *)
Lemma get_graphiti_effect w :
  let res := get_graphiti e w in
  settings (self (fst res)) = settings (self w)
  /\ (forall h, _graphiti (self w) = Some h -> self (fst res) = self w)
  /\ (forall v, snd res = Returns v -> v = _graphiti (self (fst res)) /\ is_Some v)
  /\ (forall x, snd res = Raises x -> has_handle w = false)
  /\ exists new,
       events (fst res) = (new ++ events w)%list
       /\ (has_handle w = false -> 1 <= attempts new).
Proof.
  cbn zeta. destruct (_graphiti (self w)) as [h|] eqn:H.
  - rewrite (get_graphiti_ready w h H). cbn.
    split; [reflexivity|]. split; [reflexivity|].
    split; [intros v [= <-]; rewrite H; eauto|].
    split; [discriminate|].
    exists []. unfold has_handle. rewrite H. repeat split; discriminate.
  - rewrite (get_graphiti_lazy w H).
    pose proof (initialize_graphiti_effect w) as HR. cbn zeta in HR.
    destruct (initialize_graphiti e w) as [w' [v|x]]; cbn [fst snd] in *;
      destruct HR as (Hs & Hh & Hv & Hx & new & k & Hev & Hk & _ & Hsl & Hat & Hco & Hin);
      (split; [exact Hs|]); (split; [congruence|]).
    + split.
      { intros v' [= <-]. split; [reflexivity|].
        destruct (Hv v eq_refl) as [<- Hsome]. exact Hsome. }
      split; [discriminate|].
      exists new. split; [exact Hev|]. lia.
    + split; [discriminate|].
      split; [intros; unfold has_handle; now rewrite H|].
      exists new. split; [exact Hev|]. lia.
Qed.

(** *** The health probes *)

Lemma gemini_probe_effect w :
  let res := gemini_probe e w in
  self (fst res) = self w
  /\ exists new,
       events (fst res) = (new ++ events w)%list
       /\ count is_generative_model new = 1.
Proof.
  cbn zeta. unfold gemini_probe, bind, read_settings, GenerativeModel.
  destruct (GenerativeModel_call e _ _).
  - cbn. split; [reflexivity|]. eexists [_]. split; reflexivity.
  - cbn. split; [reflexivity|]. eexists [_; _]. split; reflexivity.
Qed.

Lemma graphiti_probe_effect w :
  let res := graphiti_probe e w in
  settings (self (fst res)) = settings (self w)
  /\ (forall h, _graphiti (self w) = Some h -> self (fst res) = self w)
  /\ exists new,
       events (fst res) = (new ++ events w)%list
       /\ 1 <= count is_search new + attempts new.
Proof.
  cbn zeta. unfold graphiti_probe, bind.
  pose proof (get_graphiti_effect w) as HG. cbn zeta in HG.
  destruct (get_graphiti e w) as [w1 [v|x]]; cbn [fst snd] in *;
    destruct HG as (Hs & Hh & Hv & Hx & new & Hev & Hat).
  - destruct (Hv v eq_refl) as [-> [h Hsome]]. rewrite Hsome. cbn.
    unfold graphiti_search.
    destruct (search_call e h "health_check" None 1 _) as [hits|x]; cbn;
      (split; [exact Hs|]); (split; [exact Hh|]);
      (eexists (_ :: new); rewrite Hev; split; [reflexivity|]);
      rewrite count_cons; cbn; lia.
  - split; [exact Hs|]. split; [exact Hh|].
    exists new. split; [exact Hev|].
    specialize (Hat (Hx x eq_refl)). lia.
Qed.

Lemma health_check_unfold w :
  health_check e w =
    let r1 := gemini_probe e w in
    let r2 := graphiti_probe e (fst r1) in
    let gemini := match snd r1 with Returns b => status_of_bool b | Raises _ => "unhealthy" end in
    let graph := status_of_bool (succeeded (snd r2)) in
    (fst r2,
     Returns (<["neo4j" := graph]> (<["graphiti" := graph]>
                (<["gemini" := gemini]> unknown_status)))).
Proof.
  unfold health_check, bind, try_except. cbn zeta.
  destruct (gemini_probe e w) as [w1 [b|x]]; unfold ret; cbn beta iota delta [fst snd];
    destruct (graphiti_probe e w1) as [w2 [u|y]]; reflexivity.
Qed.

End Sequential.

(** ** Idempotence, stability of the handle, health report *)

(** C6: once the stored handle is non-None, [initialize_graphiti] returns
    that same handle, leaves the manager as it was, calls no constructor,
    and the only thing it adds to the record is the marker of tenacity's
    first attempt: no construction, no index build, no sleep. *)
Theorem initialize_graphiti_idempotent (e : Engine) (w : World) (h : Handle) :
  _graphiti (self w) = Some h ->
  let res := initialize_graphiti e w in
  snd res = Returns (Some h)
  /\ self (fst res) = self w
  /\ constructions (events (fst res)) = constructions (events w)
  /\ added w (fst res) = [EvAttempt 1].
Proof.
  intros H. cbn zeta. rewrite (initialize_graphiti_ready e w h H). cbn [fst snd].
  repeat split.
  apply (added_app [EvAttempt 1]). reflexivity.
Qed.

Lemma initialize_graphiti_idempotent_witness :
  let w := fst (initialize_graphiti reliable (fresh test_settings)) in
  _graphiti (self w) = Some 0
  /\ (let res := initialize_graphiti reliable w in
      snd res = Returns (Some 0)
      /\ self (fst res) = self w
      /\ constructions (events (fst res)) = constructions (events w)
      /\ added w (fst res) = [EvAttempt 1]).
Proof.
  split; [reflexivity|].
  apply (initialize_graphiti_idempotent reliable _ 0). reflexivity.
Defined.

(** A second call returns what the first successful call returned. *)
Lemma initialize_graphiti_twice (e : Engine) (w : World) (v : option Handle) :
  snd (initialize_graphiti e w) = Returns v ->
  snd (initialize_graphiti e (fst (initialize_graphiti e w))) = Returns v.
Proof.
  intros H.
  destruct (initialize_graphiti_effect e w) as (_ & _ & Hv & _).
  destruct (Hv v H) as [Hf [h ->]].
  now rewrite (initialize_graphiti_ready e _ h (eq_sym Hf)).
Qed.

Lemma perform_ready (e : Engine) (c : Call) (w : World) (h : Handle) :
  _graphiti (self w) = Some h -> self (perform e c w) = self w.
Proof.
  intros H. destruct c; unfold perform.
  - now rewrite (initialize_graphiti_ready e w h H).
  - now rewrite (get_graphiti_ready e w h H).
  - rewrite health_check_unfold. cbn zeta. cbn [fst].
    destruct (gemini_probe_effect e w) as [Hg _].
    destruct (graphiti_probe_effect e (fst (gemini_probe e w))) as (_ & Hp & _).
    rewrite (Hp h); [exact Hg|]. now rewrite Hg.
Qed.

(** C5: from a state whose stored handle is non-None, any sequence of
    [initialize_graphiti], [get_graphiti] and [health_check] calls, whatever
    the external services answer, leaves the manager object unchanged: the
    stored handle stays the same object. *)
Theorem handle_never_replaced (e : Engine) (cs : list Call) (w : World) (h : Handle) :
  _graphiti (self w) = Some h ->
  self (perform_all e cs w) = self w
  /\ _graphiti (self (perform_all e cs w)) = Some h.
Proof.
  revert w. induction cs as [|c cs IH]; intros w H; [now split|].
  unfold perform_all in *. cbn [fold_left].
  pose proof (perform_ready e c w h H) as Hc.
  destruct (IH (perform e c w)) as [IH1 IH2]; [now rewrite Hc|].
  split; [now rewrite IH1|exact IH2].
Qed.

Lemma handle_never_replaced_witness :
  let e := mock never never (Raises (ExternalError "timeout")) (Raises (ExternalError "quota")) in
  let w := fst (initialize_graphiti e (fresh test_settings)) in
  let cs := [health_call; initialize_call; get_call; health_call] in
  _graphiti (self w) = Some 0
  /\ self (perform_all e cs w) = self w
  /\ _graphiti (self (perform_all e cs w)) = Some 0.
Proof.
  split; [reflexivity|].
  apply (handle_never_replaced _ _ _ 0). reflexivity.
Defined.

(** C7: [health_check] never raises.  Whatever the model probe does
    (truthy or falsy response, or an exception) the engine probe runs next,
    on the state the model probe left; the report has exactly the three
    names; "gemini" is healthy exactly when the model probe returned a
    truthy response; "graphiti" and "neo4j" carry one value, healthy exactly
    when the engine probe did not raise; and both probes left their calls in
    the record. *)
Theorem health_check_isolated (e : Engine) (w : World) :
  let r1 := gemini_probe e w in
  let r2 := graphiti_probe e (fst r1) in
  exists report : gmap string string,
    health_check e w = (fst r2, Returns report)
    /\ dom report = ({["graphiti"; "neo4j"; "gemini"]} : gset string)
    /\ report !! "gemini"
       = Some (match snd r1 with Returns true => "healthy" | _ => "unhealthy" end)
    /\ report !! "graphiti" = Some (status_of_bool (succeeded (snd r2)))
    /\ report !! "neo4j" = report !! "graphiti"
    /\ (forall k v, report !! k = Some v -> v = "healthy" \/ v = "unhealthy")
    /\ count is_generative_model (added w (fst r1)) = 1
    /\ 1 <= count is_search (added (fst r1) (fst r2)) + attempts (added (fst r1) (fst r2)).
Proof.
  cbn zeta. rewrite health_check_unfold. cbn zeta.
  eexists. split; [reflexivity|].
  split. { unfold unknown_status. rewrite !dom_insert_L, dom_singleton_L. set_solver. }
  split. { rewrite !lookup_insert_ne by done. rewrite lookup_insert_eq.
           destruct (snd (gemini_probe e w)) as [[|]|]; reflexivity. }
  split. { rewrite lookup_insert_ne by done. now rewrite lookup_insert_eq. }
  split. { rewrite lookup_insert_eq. rewrite lookup_insert_ne by done.
           now rewrite lookup_insert_eq. }
  split.
  { intros k v. unfold unknown_status.
    rewrite !lookup_insert. repeat case_decide; subst; try discriminate.
    - intros [= <-]. destruct (succeeded _); auto.
    - intros [= <-]. destruct (succeeded _); auto.
    - intros [= <-]. destruct (snd (gemini_probe e w)) as [[|]|]; auto.
    - rewrite lookup_singleton_ne by done. discriminate. }
  destruct (gemini_probe_effect e w) as (_ & new1 & Hev1 & Hc1).
  destruct (graphiti_probe_effect e (fst (gemini_probe e w))) as (_ & _ & new2 & Hev2 & Hc2).
  rewrite (added_app new1 _ _ Hev1), (added_app new2 _ _ Hev2). split; assumption.
Qed.

(** The isolation scenario: the model probe raises, the engine probe
    succeeds. *)
Example health_isolation_scenario :
  let e := mock never never (Returns []) (Raises (ExternalError "quota exceeded")) in
  snd (health_check e (fresh test_settings))
  = Returns {[ "graphiti" := "healthy"; "neo4j" := "healthy"; "gemini" := "unhealthy" ]}.
Proof. vm_compute. reflexivity. Qed.

(** ** The backoff policy *)

Lemma wait_le_max (p : Tenacity.wait_policy) (n : nat) :
  (Tenacity.min p <= Tenacity.max p)%Z -> (0 <= Tenacity.max p)%Z ->
  (Tenacity.wait p n <= Tenacity.max p)%Z.
Proof. unfold Tenacity.wait. lia. Qed.

Lemma wait_ge_min (p : Tenacity.wait_policy) (n : nat) :
  (Tenacity.min p <= Tenacity.wait p n)%Z.
Proof. unfold Tenacity.wait. lia. Qed.

Lemma wait_mono (p : Tenacity.wait_policy) (n m : nat) :
  (0 <= Tenacity.multiplier p)%Z -> (0 < Tenacity.exp_base p)%Z -> n <= m ->
  (Tenacity.wait p n <= Tenacity.wait p m)%Z.
Proof.
  intros Hm Hb Hnm. unfold Tenacity.wait. cbn zeta.
  assert (Tenacity.multiplier p * Tenacity.exp_base p ^ (Z.of_nat n - 1)
          <= Tenacity.multiplier p * Tenacity.exp_base p ^ (Z.of_nat m - 1))%Z.
  { apply Z.mul_le_mono_nonneg_l; [exact Hm|].
    apply Z.pow_le_mono_r; lia. }
  lia.
Qed.

Lemma sorted_map_seq (f : nat -> Z) (k : nat) : forall n,
  (forall i j, i <= j -> (f i <= f j)%Z) ->
  StronglySorted Z.le (List.map f (seq n k)).
Proof.
  induction k as [|k IH]; intros n Hf; cbn; constructor.
  - now apply IH.
  - apply List.Forall_forall. intros d Hd.
    apply List.in_map_iff in Hd as (j & <- & Hj). apply List.in_seq in Hj.
    apply Hf. lia.
Qed.

Lemma delays_of_run (e : Engine) (w : World) :
  exists k, k <= 2
    /\ (succeeded (snd (initialize_graphiti e w)) = false -> k = 2)
    /\ attempts (added w (fst (initialize_graphiti e w))) = S k
    /\ delays (added w (fst (initialize_graphiti e w)))
       = List.map (Tenacity.wait decorator_wait) (seq 1 k).
Proof.
  destruct (initialize_graphiti_effect e w)
    as (_ & _ & _ & _ & new & k & Hev & Hk & Hf & Hsl & Hat & _).
  exists k. rewrite (added_app new _ _ Hev). unfold delays.
  rewrite Hsl, rev_involutive. auto.
Qed.

(** C8: the delays slept during one call of [initialize_graphiti] are
    non-decreasing and none exceeds the maximum of the backoff policy
    (10 seconds); this holds for every run, failing or not. *)
Theorem backoff_monotone (e : Engine) (w : World) :
  let ds := delays (added w (fst (initialize_graphiti e w))) in
  StronglySorted Z.le ds
  /\ Forall (fun d => (d <= Tenacity.max decorator_wait)%Z) ds.
Proof.
  cbn zeta. destruct (delays_of_run e w) as (k & _ & _ & _ & ->). split.
  - apply sorted_map_seq. intros i j Hij. apply wait_mono; cbn; lia.
  - apply List.Forall_forall. intros d Hd.
    apply List.in_map_iff in Hd as (j & <- & _).
    apply wait_le_max; cbn; lia.
Qed.

(** A run that fails slept twice, 4 seconds each time. *)
Lemma failing_run_delays (e : Engine) (w : World) :
  succeeded (snd (initialize_graphiti e w)) = false ->
  delays (added w (fst (initialize_graphiti e w))) = [4; 4]%Z.
Proof.
  intros H. destruct (delays_of_run e w) as (k & _ & Hk & _ & ->).
  now rewrite (Hk H).
Qed.

(** ** Settings the retry logic never reads *)

Lemma body_agree (e : Engine) (w w' : World) :
  agree w w' ->
  snd (initialize_graphiti_body e w) = snd (initialize_graphiti_body e w')
  /\ agree (fst (initialize_graphiti_body e w)) (fst (initialize_graphiti_body e w')).
Proof.
  intros (Hg & He & Ha).
  destruct (body_cases e w) as [h H|msg H HG|msg H HG HB|H HG HB];
    destruct (body_cases e w') as [h' H'|msg' H' HG'|msg' H' HG' HB'|H' HG' HB'];
    rewrite ?He, ?Ha in *; try congruence;
    cbn [fst snd]; unfold agree; cbn; rewrite ?He, ?Ha; repeat split; congruence.
Qed.

Lemma retry_from_agree (e : Engine) (wt : Tenacity.wait_policy) (r : nat) :
  forall n w w', agree w w' ->
    snd (retry_from wt r n (initialize_graphiti_body e) w)
    = snd (retry_from wt r n (initialize_graphiti_body e) w')
    /\ agree (fst (retry_from wt r n (initialize_graphiti_body e) w))
             (fst (retry_from wt r n (initialize_graphiti_body e) w')).
Proof.
  assert (Hemit : forall ev w w', agree w w' -> agree (emit ev w) (emit ev w')).
  { intros ev w w' (Hg & He & Ha). unfold agree. cbn. rewrite He. auto. }
  induction r as [|r IH]; intros n w w' Hag; simpl retry_from;
    destruct (body_agree e _ _ (Hemit (EvAttempt n) w w' Hag)) as [Ho Hw];
    destruct (initialize_graphiti_body e (emit (EvAttempt n) w)) as [w1 o1];
    destruct (initialize_graphiti_body e (emit (EvAttempt n) w')) as [w1' o1'];
    cbn [fst snd] in *; subst o1'; destruct o1 as [v|x]; cbn [fst snd]; auto.
Qed.

(** C10: the attempt bound and the backoff are the constants written in
    the decorator: at most 3 attempts, every delay between 4 and 10 seconds.
    The settings fields [max_retries] and [retry_delay] do not reach the
    retry logic: with any other values for them the call has the same
    outcome, the same stored handle and the same record of calls (so the
    same number of attempts and the same delays). *)
Theorem retry_parameters_fixed (e : Engine) (w : World) (n : Z) (d : Config.float) :
  let res := initialize_graphiti e w in
  let s' := set_max_retries n (set_retry_delay d (settings (self w))) in
  let res' := initialize_graphiti e (with_settings s' w) in
  decorator_stop = Tenacity.stop_after_attempt 3
  /\ decorator_wait = Tenacity.wait_exponential 1 4 10 2
  /\ snd res' = snd res
  /\ _graphiti (self (fst res')) = _graphiti (self (fst res))
  /\ events (fst res') = events (fst res)
  /\ 1 <= attempts (added w (fst res)) <= 3
  /\ Forall (fun x => (4 <= x <= 10)%Z) (delays (added w (fst res))).
Proof.
  cbn zeta. split; [reflexivity|]. split; [reflexivity|].
  assert (Hag : agree (with_settings
                         (set_max_retries n (set_retry_delay d (settings (self w)))) w) w).
  { unfold agree. cbn. auto. }
  destruct (retry_from_agree e decorator_wait 2 1 _ _ Hag) as [Ho (Hg & He & _)].
  split; [exact Ho|]. split; [exact Hg|]. split; [exact He|].
  destruct (delays_of_run e w) as (k & Hk & _ & Hat & ->).
  split; [lia|].
  apply List.Forall_forall. intros x Hx.
  apply List.in_map_iff in Hx as (j & <- & _).
  split; [apply (wait_ge_min decorator_wait)|apply wait_le_max; cbn; lia].
Qed.

(** ** The retry bound *)

Section RetryBound.

Variable e : Engine.
Variable wt : Tenacity.wait_policy.

Lemma retry_from_fails_then_succeeds (k : nat) : forall r n w,
  k <= r ->
  _graphiti (self w) = None ->
  (forall i, i < k ->
     Graphiti_call e (graphiti_args_of (settings (self w))) (constructions (events w) + i) <> None) ->
  Graphiti_call e (graphiti_args_of (settings (self w))) (constructions (events w) + k) = None ->
  (forall h m, build_indices_call e h m = None) ->
  let res := retry_from wt r n (initialize_graphiti_body e) w in
  snd res = Returns (Some (constructions (events w) + k))
  /\ attempts (events (fst res)) = attempts (events w) + S k
  /\ constructions (events (fst res)) = constructions (events w) + S k
  /\ _graphiti (self (fst res)) = Some (constructions (events w) + k).
Proof.
  induction k as [|k IH]; intros r n w Hr Hnone Hfail Hok Hbuild; cbn zeta.
  - rewrite Nat.add_0_r in *.
    assert (Hres : initialize_graphiti_body e (emit (EvAttempt n) w)
                   = (emit (EvBuildIndices (constructions (events w)) true)
                        (set_graphiti (Some (constructions (events w)))
                           (emit (EvGraphiti (graphiti_args_of (settings (self w)))
                                    (Some (constructions (events w))))
                              (emit (EvAttempt n) w))),
                      Returns (Some (constructions (events w))))).
    { destruct (body_cases e (emit (EvAttempt n) w)) as [h H|msg H HG|msg H HG HB|H HG HB];
        cbn in H; try congruence;
        try (exfalso; rewrite Hbuild in HB; discriminate).
      - exfalso. cbn in HG. unfold constructions, count in Hok. congruence.
      - reflexivity. }
    destruct r; simpl retry_from; rewrite Hres; cbn [fst snd];
      unfold attempts, constructions; cbn [emit events set_graphiti self _graphiti];
      rewrite !count_cons; cbn; repeat split; try lia.
  - destruct r as [|r]; [lia|].
    assert (Hres : exists msg, initialize_graphiti_body e (emit (EvAttempt n) w)
                   = (emit (EvGraphiti (graphiti_args_of (settings (self w))) None)
                        (emit (EvAttempt n) w),
                      Raises (ExternalError msg))).
    { destruct (body_cases e (emit (EvAttempt n) w)) as [h H|msg H HG|msg H HG HB|H HG HB];
        cbn in H; try congruence;
        try (exfalso; apply (Hfail 0); [lia|]; rewrite Nat.add_0_r; exact HG).
      eauto. }
    destruct Hres as [msg Hres]. simpl retry_from. rewrite Hres.
    match goal with |- context [retry_from wt r (S n) _ ?w1] =>
      specialize (IH r (S n) w1) end.
    cbn zeta in IH.
    assert (Hc : forall ev, constructions
                   (events (emit ev (emit (EvGraphiti (graphiti_args_of (settings (self w))) None)
                                       (emit (EvAttempt n) w))))
                 = (if is_graphiti ev then 1 else 0) + S (constructions (events w))).
    { intros ev. unfold constructions. cbn [emit events]. now rewrite !count_cons. }
    rewrite (Hc (EvSleep _)) in IH. cbn [is_graphiti] in IH.
    destruct IH as (I1 & I2 & I3 & I4).
    + lia.
    + exact Hnone.
    + intros i Hi. replace (0 + S (constructions (events w)) + i)
        with (constructions (events w) + S i) by lia.
      apply Hfail. lia.
    + replace (0 + S (constructions (events w)) + k)
        with (constructions (events w) + S k) by lia. exact Hok.
    + exact Hbuild.
    + replace (0 + S (constructions (events w)) + k)
        with (constructions (events w) + S k) in * by lia.
      split; [exact I1|]. split; [|split; [|exact I4]].
      * rewrite I2. unfold attempts. cbn [emit events]. rewrite !count_cons. cbn. lia.
      * rewrite I3. lia.
Qed.

Lemma retry_from_always_fails (r : nat) : forall n w,
  _graphiti (self w) = None ->
  (forall i, Graphiti_call e (graphiti_args_of (settings (self w))) i <> None) ->
  let res := retry_from wt r n (initialize_graphiti_body e) w in
  (exists msg, snd res = Raises (RetryError (ExternalError msg)))
  /\ attempts (events (fst res)) = attempts (events w) + S r
  /\ constructions (events (fst res)) = constructions (events w) + S r
  /\ _graphiti (self (fst res)) = None.
Proof.
  induction r as [|r IH]; intros n w Hnone Hfail; cbn zeta;
    assert (Hres : exists msg, initialize_graphiti_body e (emit (EvAttempt n) w)
                   = (emit (EvGraphiti (graphiti_args_of (settings (self w))) None)
                        (emit (EvAttempt n) w),
                      Raises (ExternalError msg)))
      by (destruct (body_cases e (emit (EvAttempt n) w)) as [h H|msg H HG|msg H HG HB|H HG HB];
          cbn in H; try congruence; [eauto | exfalso; exact (Hfail _ HG) ..]);
    destruct Hres as [msg Hres]; simpl retry_from; rewrite Hres; cbn [fst snd].
  - split; [eauto|]. unfold attempts, constructions. cbn [emit events self].
    rewrite !count_cons. cbn. repeat split; try lia. exact Hnone.
  - match goal with |- context [retry_from wt r (S n) _ ?w1] =>
      destruct (IH (S n) w1) as (I1 & I2 & I3 & I4) end; [exact Hnone|exact Hfail|].
    split; [exact I1|]. rewrite I2, I3. unfold attempts, constructions.
    cbn [emit events]. rewrite !count_cons. cbn. repeat split; try lia. exact I4.
Qed.

End RetryBound.

(** C4, amended: the bound is the 3 of the decorator, whatever
    [max_retries] holds.  If the Graphiti constructor raises on its first
    [k < 3] calls and then returns (and index builds succeed),
    [initialize_graphiti] on a new manager returns the handle after exactly
    [k + 1] attempts and constructor calls; if the constructor raises on
    every call, it raises [RetryError] after exactly 3 attempts and the
    stored handle is still None. *)
Theorem retry_bound (e : Engine) (s : Settings) (k : nat) :
  let res := initialize_graphiti e (fresh s) in
  (k < 3 -> fails_then_succeeds e s k ->
     snd res = Returns (Some k)
     /\ attempts (events (fst res)) = k + 1
     /\ constructions (events (fst res)) = k + 1
     /\ _graphiti (self (fst res)) = Some k)
  /\ (always_fails e s ->
     (exists msg, snd res = Raises (RetryError (ExternalError msg)))
     /\ attempts (events (fst res)) = 3
     /\ constructions (events (fst res)) = 3
     /\ _graphiti (self (fst res)) = None).
Proof.
  cbn zeta. split.
  - intros Hk (Hfail & Hok & Hbuild).
    destruct (retry_from_fails_then_succeeds e decorator_wait k 2 1 (fresh s))
      as (H1 & H2 & H3 & H4); try assumption; try reflexivity; [lia|].
    cbn in H1, H2, H3, H4. rewrite Nat.add_1_r. auto.
  - intros Hfail.
    destruct (retry_from_always_fails e decorator_wait 2 1 (fresh s))
      as (H1 & H2 & H3 & H4); try assumption; try reflexivity.
    auto.
Qed.

Lemma mock_fails_then_succeeds k hits response s :
  fails_then_succeeds (mock (first k) never hits response) s k.
Proof.
  unfold fails_then_succeeds, mock, first, never. cbn -[Nat.ltb]. split; [|split].
  - intros i Hi. apply Nat.ltb_lt in Hi. rewrite Hi. discriminate.
  - now rewrite Nat.ltb_irrefl.
  - reflexivity.
Qed.

Lemma mock_always_fails build hits response s :
  always_fails (mock always build hits response) s.
Proof. intros i. unfold mock, always. cbn. discriminate. Qed.

Lemma retry_bound_witness :
  let e1 := mock (first 2) never (Returns []) (Returns true) in
  let e2 := mock always never (Returns []) (Returns true) in
  let res1 := initialize_graphiti e1 (fresh test_settings) in
  let res2 := initialize_graphiti e2 (fresh test_settings) in
  (2 < 3 /\ fails_then_succeeds e1 test_settings 2
   /\ snd res1 = Returns (Some 2)
   /\ attempts (events (fst res1)) = 2 + 1
   /\ constructions (events (fst res1)) = 2 + 1
   /\ _graphiti (self (fst res1)) = Some 2)
  /\ (always_fails e2 test_settings
      /\ (exists msg, snd res2 = Raises (RetryError (ExternalError msg)))
      /\ attempts (events (fst res2)) = 3
      /\ constructions (events (fst res2)) = 3
      /\ _graphiti (self (fst res2)) = None).
Proof.
  cbn zeta. split.
  - split; [lia|]. split; [apply mock_fails_then_succeeds|].
    apply (retry_bound (mock (first 2) never (Returns []) (Returns true)) test_settings 2);
      [lia|apply mock_fails_then_succeeds].
  - split; [apply mock_always_fails|].
    apply (retry_bound (mock always never (Returns []) (Returns true)) test_settings 0).
    apply mock_always_fails.
Defined.

(** C4 as stated fails: with [max_retries = 5] and a constructor that
    raises 3 times before it would succeed (3 < 5), the call gives up after
    3 attempts. *)
Lemma retry_bound_as_stated_fails :
  let e := mock (first 3) never (Returns []) (Returns true) in
  let s := set_max_retries 5 test_settings in
  let res := initialize_graphiti e (fresh s) in
  ((Z.of_nat 3 < max_retries s)%Z
   /\ fails_then_succeeds e s 3
   /\ snd res = Raises (RetryError (ExternalError "connection refused"))
   /\ attempts (events (fst res)) = 3)
  /\ ~ retry_bound_as_stated.
Proof.
  cbn zeta. split.
  - split; [reflexivity|]. split; [apply mock_fails_then_succeeds|]. split; reflexivity.
  - intros H.
    destruct (H (mock (first 3) never (Returns []) (Returns true))
                (set_max_retries 5 test_settings)) as [H1 _].
    destruct (H1 3) as [Hs _]; [reflexivity|apply mock_fails_then_succeeds|].
    discriminate Hs.
Qed.

(** ** A failed index build *)

(** Whenever the constructor returns and [build_indices] raises, the next
    attempt finds the handle stored and returns it. *)
Lemma failed_build_is_absorbed (e : Engine) (w : World) (msg : string) :
  _graphiti (self w) = None ->
  Graphiti_call e (graphiti_args_of (settings (self w))) (constructions (events w)) = None ->
  build_indices_call e (constructions (events w)) (count is_build (events w)) = Some msg ->
  let res := initialize_graphiti e w in
  let h := constructions (events w) in
  snd res = Returns (Some h)
  /\ _graphiti (self (fst res)) = Some h
  /\ added w (fst res) =
       [EvAttempt 2; EvSleep 4; EvBuildIndices h false;
        EvGraphiti (graphiti_args_of (settings (self w))) (Some h); EvAttempt 1].
Proof.
  intros Hnone HG HB. cbn zeta. unfold initialize_graphiti, retry. simpl.
  destruct (body_cases e (emit (EvAttempt 1) w)) as [h H|m H HG'|m H HG' HB'|H HG' HB'];
    cbn in H; try congruence;
    try (exfalso; cbn in HG'; unfold constructions, count in *; congruence);
    try (exfalso; cbn in HG', HB'; unfold constructions, count in *; congruence).
  erewrite body_ready by reflexivity. cbn [fst snd].
  split; [reflexivity|]. split; [reflexivity|].
  eapply (added_app [_; _; _; _; _]). reflexivity.
Qed.

(** C3 at its failing input: the constructor returns, every
    [build_indices] call raises.  Every construction attempt fails, yet the
    call returns normally on its second attempt, the stored handle is not
    None, and the handle it holds never had its indices built. *)
Theorem failed_build_leaves_handle :
  let e := mock never always (Returns []) (Returns true) in
  let res := initialize_graphiti e (fresh test_settings) in
  snd res = Returns (Some 0)
  /\ _graphiti (self (fst res)) = Some 0
  /\ built (events (fst res)) 0 = false
  /\ constructions (events (fst res)) = 1
  /\ attempts (events (fst res)) = 2.
Proof. cbn zeta. repeat split; reflexivity. Qed.

(** C2 at its failing input, the same engine: [get_graphiti] returns the
    handle whose [build_indices] raised, in the call that built it and in
    every later call, and no index build ever completed on it. *)
Theorem get_graphiti_returns_unbuilt_handle :
  let e := mock never always (Returns []) (Returns true) in
  let res := get_graphiti e (fresh test_settings) in
  let res' := get_graphiti e (fst res) in
  snd res = Returns (Some 0)
  /\ List.In (EvBuildIndices 0 false) (events (fst res))
  /\ built (events (fst res)) 0 = false
  /\ snd res' = Returns (Some 0)
  /\ built (events (fst res')) 0 = false.
Proof. cbn zeta. repeat split; try reflexivity. cbn. auto. Qed.

(** ** Callers interleaved by the event loop *)

Section EventLoop.

Variable e : Engine.

Lemma has_handle_emit ev w : has_handle (emit ev w) = has_handle w.
Proof. reflexivity. Qed.

(** One attempt up to its first suspension. *)
Lemma begin_attempt_effect en n w :
  let w' := fst (Async.begin_attempt e en n w) in
  let p := snd (Async.begin_attempt e en n w) in
  settings (self w') = settings (self w)
  /\ (forall h, _graphiti (self w) = Some h -> _graphiti (self w') = Some h)
  /\ task_ok w' {| Async.entry_point := en; Async.at_pc := p |}
  /\ installations (events w')
     = installations (events w) + (if has_handle w then 0 else if has_handle w' then 1 else 0)
  /\ constructions (events w')
     = constructions (events w) + (if has_handle w then 0 else 1)
  /\ (Graphiti_call e (graphiti_args_of (settings (self w))) (constructions (events w)) = None ->
      has_handle w' = true).
Proof.
  cbn zeta. unfold Async.begin_attempt, Async.after_return, Async.after_raise, Graphiti,
    task_ok, has_handle, installations, constructions.
  cbn [emit self events _graphiti].
  destruct (_graphiti (self w)) as [h|] eqn:H.
  - destruct en; cbn; rewrite ?H; repeat split; eauto; try (unfold count; lia).
  - rewrite !count_cons. cbn [is_graphiti is_installed Nat.add].
    destruct (Graphiti_call e _ _) as [msg|] eqn:HG.
    + destruct (Tenacity.stop decorator_stop n); cbn; rewrite ?H, ?count_cons; cbn;
        repeat split; auto; try (unfold count; lia); try congruence.
    + cbn. rewrite ?count_cons. cbn.
      repeat split; auto; try (unfold count; lia); try congruence.
Qed.

Lemma resume_effect t w w' p :
  task_ok w t ->
  Async.resume e t w = Some (w', p) ->
  settings (self w') = settings (self w)
  /\ (forall h, _graphiti (self w) = Some h -> _graphiti (self w') = Some h)
  /\ task_ok w' {| Async.entry_point := Async.entry_point t; Async.at_pc := p |}
  /\ installations (events w')
     = installations (events w) + (if has_handle w then 0 else if has_handle w' then 1 else 0)
  /\ constructions (events w')
     = constructions (events w) + (if has_handle w then 0 else 1)
  /\ (Graphiti_call e (graphiti_args_of (settings (self w))) (constructions (events w)) = None ->
      has_handle w' = true).
Proof.
  intros Hok Hres. unfold Async.resume in Hres.
  destruct t as [en pc]. cbn [Async.at_pc Async.entry_point] in *.
  unfold task_ok in Hok. cbn [Async.at_pc] in Hok.
  destruct pc as [|n h|n|r].
  - destruct en.
    + injection Hres as Hres.
      pose proof (begin_attempt_effect Async.call_initialize_graphiti 1 w) as HB.
      rewrite Hres in HB. exact HB.
    + destruct (_graphiti (self w)) as [h|] eqn:H.
      * injection Hres as <- <-. unfold task_ok, has_handle. cbn. rewrite H.
        repeat split; eauto; lia.
      * injection Hres as Hres.
        pose proof (begin_attempt_effect Async.call_get_graphiti 1 w) as HB.
        rewrite Hres in HB. cbn zeta in HB. cbn [fst snd] in HB.
        rewrite H in HB. exact HB.
  - unfold build_indices in Hres.
    assert (Hh : has_handle w = true) by (unfold has_handle; now rewrite Hok).
    destruct (build_indices_call e h _) as [msg|].
    + unfold Async.after_raise in Hres.
      destruct (Tenacity.stop decorator_stop n); injection Hres as <- <-;
        unfold task_ok, installations, constructions; cbn [emit self events _graphiti];
        rewrite ?has_handle_emit, ?count_cons, Hh; cbn;
        repeat split; auto; lia.
    + unfold Async.after_return in Hres.
      destruct en; injection Hres as <- <-;
        unfold task_ok, installations, constructions; cbn [emit self events _graphiti];
        rewrite ?has_handle_emit, ?count_cons, Hh; cbn; rewrite ?Hok;
        repeat split; eauto; lia.
  - injection Hres as Hres.
    pose proof (begin_attempt_effect en (S n) w) as HB.
    rewrite Hres in HB. exact HB.
  - discriminate.
Qed.

Lemma task_ok_stable w w' t :
  (forall h, _graphiti (self w) = Some h -> _graphiti (self w') = Some h) ->
  task_ok w t -> task_ok w' t.
Proof.
  intros Hmono. unfold task_ok. destruct (Async.at_pc t) as [|n h|n|[r|x]]; auto.
  intros [-> [h Hh]]. rewrite Hh, (Hmono h Hh). eauto.
Qed.

Lemma invariant_run s i sys sys' :
  invariant s sys -> Async.run e i sys = Some sys' -> invariant s sys'.
Proof.
  intros (Hs & Hinst & Hall) Hrun. unfold Async.run in Hrun.
  destruct (Async.tasks sys !! i) as [t|] eqn:Ht; [|discriminate].
  destruct (Async.resume e t (Async.world sys)) as [[w' p]|] eqn:Hres; [|discriminate].
  injection Hrun as <-.
  assert (Hok : task_ok (Async.world sys) t)
    by (rewrite Forall_lookup in Hall; exact (Hall i t Ht)).
  destruct (resume_effect t _ _ _ Hok Hres) as (Hs' & Hmono & Hok' & Hinst' & _).
  unfold invariant. cbn [Async.world Async.tasks].
  split; [congruence|]. split.
  - rewrite Hinst', Hinst. destruct (has_handle (Async.world sys)) eqn:Hw.
    + apply has_handle_true in Hw as [h Hw].
      rewrite (has_handle_Some w' h (Hmono h Hw)). reflexivity.
    + reflexivity.
  - apply Forall_insert; [|exact Hok'].
    eapply Forall_impl; [exact Hall|]. intros t0. now apply task_ok_stable.
Qed.

Lemma invariant_spawn s entries : invariant s (Async.spawn s entries).
Proof.
  unfold invariant. cbn. repeat split.
  apply Forall_forall. intros t Ht. apply list_elem_of_In, List.in_map_iff in Ht as (en & <- & _).
  exact I.
Qed.

Lemma invariant_schedule s sch : forall sys sys',
  invariant s sys -> Async.run_schedule e sch sys = Some sys' -> invariant s sys'.
Proof.
  induction sch as [|i sch IH]; intros sys sys' Hinv Hrun; cbn in Hrun.
  - now injection Hrun as <-.
  - destruct (Async.run e i sys) as [sys1|] eqn:H1; [|discriminate].
    eapply IH; [|exact Hrun]. eapply invariant_run; eauto.
Qed.

(** The same for the step relation. *)
Lemma invariant_reachable s entries sys :
  rtc (Async.step e) (Async.spawn s entries) sys -> invariant s sys.
Proof.
  intros H. eapply (rtc_ind_r (fun sys => invariant s sys)); [| |exact H].
  - apply invariant_spawn.
  - intros x y _ [i Hi] Hx. eapply invariant_run; eauto.
Qed.

(** When the first constructor call returns, it is the only one. *)
Lemma first_construction_run s i sys sys' :
  Graphiti_call e (graphiti_args_of s) 0 = None ->
  invariant s sys ->
  constructions (events (Async.world sys)) = (if has_handle (Async.world sys) then 1 else 0) ->
  Async.run e i sys = Some sys' ->
  constructions (events (Async.world sys')) = 1
  /\ has_handle (Async.world sys') = true.
Proof.
  intros H0 (Hs & _ & Hall) Hc Hrun. unfold Async.run in Hrun.
  destruct (Async.tasks sys !! i) as [t|] eqn:Ht; [|discriminate].
  destruct (Async.resume e t (Async.world sys)) as [[w' p]|] eqn:Hres; [|discriminate].
  injection Hrun as <-. cbn [Async.world].
  assert (Hok : task_ok (Async.world sys) t)
    by (rewrite Forall_lookup in Hall; exact (Hall i t Ht)).
  destruct (resume_effect t _ _ _ Hok Hres) as (_ & Hmono & _ & _ & Hc' & Hfirst).
  rewrite Hc', Hc. destruct (has_handle (Async.world sys)) eqn:Hw.
  - apply has_handle_true in Hw as [h Hw].
    split; [reflexivity|]. exact (has_handle_Some w' h (Hmono h Hw)).
  - split; [reflexivity|]. apply Hfirst. rewrite Hs, Hc. exact H0.
Qed.

Lemma first_construction_schedule s sch : forall sys sys',
  Graphiti_call e (graphiti_args_of s) 0 = None ->
  invariant s sys ->
  constructions (events (Async.world sys)) = (if has_handle (Async.world sys) then 1 else 0) ->
  Async.run_schedule e sch sys = Some sys' ->
  sch <> [] ->
  constructions (events (Async.world sys')) = 1.
Proof.
  induction sch as [|i sch IH]; intros sys sys' H0 Hinv Hc Hrun Hne; [congruence|].
  cbn in Hrun. destruct (Async.run e i sys) as [sys1|] eqn:H1; [|discriminate].
  destruct (first_construction_run s i sys sys1 H0 Hinv Hc H1) as [Hc1 Hh1].
  destruct sch as [|j sch].
  - cbn in Hrun. now injection Hrun as <-.
  - eapply (IH sys1 sys'); eauto; try discriminate.
    + eapply invariant_run; eauto.
    + now rewrite Hh1.
Qed.

(** The stored handle is never replaced by a resumption. *)
Lemma handle_stable_schedule s sch : forall sys sys' h,
  invariant s sys ->
  Async.run_schedule e sch sys = Some sys' ->
  _graphiti (self (Async.world sys)) = Some h ->
  _graphiti (self (Async.world sys')) = Some h.
Proof.
  induction sch as [|i sch IH]; intros sys sys' h Hinv Hrun Hh; cbn in Hrun.
  - now injection Hrun as <-.
  - destruct (Async.run e i sys) as [sys1|] eqn:H1; [|discriminate].
    apply (IH sys1 sys' h); [eapply invariant_run; eauto|exact Hrun|].
    destruct Hinv as (_ & _ & Hall). unfold Async.run in H1.
    destruct (Async.tasks sys !! i) as [t|] eqn:Ht; [|discriminate].
    destruct (Async.resume e t (Async.world sys)) as [[w' p]|] eqn:Hres; [|discriminate].
    injection H1 as <-. cbn [Async.world].
    assert (Hok : task_ok (Async.world sys) t)
      by (rewrite Forall_lookup in Hall; exact (Hall i t Ht)).
    destruct (resume_effect t _ _ _ Hok Hres) as (_ & Hmono & _). now apply Hmono.
Qed.

End EventLoop.

(** X26: whatever the engine does and whatever the schedule of the callers
    started together on a new manager: at most one handle is ever
    installed; every caller that has returned returned the stored handle,
    which is not None, so all callers that return observe the same handle;
    and when the first call of the Graphiti constructor returns, exactly one
    construction occurs. *)
Theorem single_installation (e : Engine) (s : Settings) (entries : list Async.entry)
    (sch : list nat) (sys : Async.System) :
  Async.run_schedule e sch (Async.spawn s entries) = Some sys ->
  let w := Async.world sys in
  installations (events w) <= 1
  /\ Forall (fun t => forall r, Async.returned t = Some r ->
                                r = _graphiti (self w) /\ is_Some r) (Async.tasks sys)
  /\ (forall t1 t2 r1 r2, t1 ∈ Async.tasks sys -> t2 ∈ Async.tasks sys ->
        Async.returned t1 = Some r1 -> Async.returned t2 = Some r2 -> r1 = r2)
  /\ (Graphiti_call e (graphiti_args_of s) 0 = None -> sch <> [] ->
      constructions (events w) = 1).
Proof.
  intros Hrun. cbn zeta.
  pose proof (invariant_schedule e s sch _ _ (invariant_spawn s entries) Hrun)
    as (Hs & Hinst & Hall).
  assert (Hret : Forall (fun t => forall r, Async.returned t = Some r ->
                    r = _graphiti (self (Async.world sys)) /\ is_Some r) (Async.tasks sys)).
  { eapply Forall_impl; [exact Hall|]. intros t Hok r Hr.
    unfold task_ok in Hok. unfold Async.returned in Hr.
    destruct (Async.at_pc t) as [|n h|n|[r0|x]]; try discriminate.
    now injection Hr as <-. }
  split; [rewrite Hinst; destruct (has_handle _); lia|].
  split; [exact Hret|]. split.
  - intros t1 t2 r1 r2 Ht1 Ht2 Hr1 Hr2. rewrite Forall_forall in Hret.
    destruct (Hret t1 Ht1 r1 Hr1) as [-> _]. destruct (Hret t2 Ht2 r2 Hr2) as [-> _].
    reflexivity.
  - intros H0 Hne.
    eapply (first_construction_schedule e s sch (Async.spawn s entries)); eauto.
    apply invariant_spawn.
Qed.

Lemma single_installation_witness :
  let entries := [Async.call_get_graphiti; Async.call_initialize_graphiti; Async.call_get_graphiti] in
  let sch := [1; 0; 2; 1] in
  exists sys,
    Async.run_schedule reliable sch (Async.spawn test_settings entries) = Some sys
    /\ Async.all_done sys = true
    /\ installations (events (Async.world sys)) <= 1
    /\ Forall (fun t => forall r, Async.returned t = Some r ->
           r = _graphiti (self (Async.world sys)) /\ is_Some r) (Async.tasks sys)
    /\ constructions (events (Async.world sys)) = 1.
Proof.
  cbn zeta. eexists. split; [reflexivity|]. split; [reflexivity|].
  match goal with |- context [Forall _ (Async.tasks ?sys)] =>
    destruct (single_installation reliable test_settings
                [Async.call_get_graphiti; Async.call_initialize_graphiti; Async.call_get_graphiti]
                [1; 0; 2; 1] sys eq_refl) as (H1 & H2 & _ & H3) end.
  split; [exact H1|]. split; [exact H2|]. apply H3; [reflexivity|discriminate].
Defined.

(** Nothing serialises the attempt sequences when the constructor raises.
    Two callers of [get_graphiti], a constructor that raises on its first
    call only: the first caller's attempt raises and it sleeps; the second
    caller finds no handle and constructs one; both end with the same
    handle, after two constructor calls from two attempt sequences. *)
Lemma raising_constructor_two_sequences :
  let e := mock (first 1) never (Returns []) (Returns true) in
  let entries := [Async.call_get_graphiti; Async.call_get_graphiti] in
  exists sys,
    Async.run_schedule e [0; 1; 1; 0] (Async.spawn test_settings entries) = Some sys
    /\ Async.all_done sys = true
    /\ Forall (fun t => Async.returned t = Some (Some 1)) (Async.tasks sys)
    /\ constructions (events (Async.world sys)) = 2
    /\ attempts (events (Async.world sys)) = 3.
Proof.
  cbn zeta. eexists. split; [reflexivity|]. split; [reflexivity|].
  split; [repeat constructor|]. split; reflexivity.
Qed.

(** ** A task run alone is the run-to-completion coroutine *)

Section Alone.

Variable e : Engine.

Lemma run_alone_done fuel en r w :
  Async.run_alone e fuel {| Async.entry_point := en; Async.at_pc := Async.Done r |} w
  = Some (w, r).
Proof. destruct fuel; reflexivity. Qed.

Lemma stop_last n : 3 - n = 0 -> Tenacity.stop decorator_stop n = true.
Proof. intros H. unfold decorator_stop, Tenacity.stop. apply Nat.leb_le. lia. Qed.

Lemma stop_not_last n r : 3 - n = S r -> Tenacity.stop decorator_stop n = false.
Proof. intros H. unfold decorator_stop, Tenacity.stop. apply Nat.leb_gt. lia. Qed.

Lemma begin_attempt_refines (r : nat) : forall n w en fuel,
  3 - n = r -> 2 * r + 1 <= fuel ->
  (let (w1, p) := Async.begin_attempt e en n w in
   Async.run_alone e fuel {| Async.entry_point := en; Async.at_pc := p |} w1)
  = Some (as_seen_by en (retry_from decorator_wait r n (initialize_graphiti_body e) w)).
Proof.
  induction r as [|r IH]; intros n w en fuel Hn Hfuel.
  - pose proof (stop_last n Hn) as Hstop.
    simpl retry_from. unfold Async.begin_attempt.
    destruct (body_cases e (emit (EvAttempt n) w)) as [h H|msg H HG|msg H HG HB|H HG HB];
      rewrite H; unfold Graphiti; rewrite ?HG; cbn beta iota; cbn [fst snd].
    + unfold Async.after_return, as_seen_by.
      destruct en; cbn [fst snd]; rewrite ?H; apply run_alone_done.
    + unfold Async.after_raise. rewrite Hstop. cbn [fst snd].
      rewrite run_alone_done. now destruct en.
    + destruct fuel as [|fuel]; [lia|]. cbn [Async.run_alone Async.at_pc Async.resume].
      unfold build_indices. cbn [set_graphiti emit events] in HB |- *.
      unfold count in HB |- *. cbn [List.filter is_build] in HB |- *. rewrite HB.
      unfold Async.after_raise. rewrite Hstop. cbn [Async.entry_point].
      rewrite run_alone_done. now destruct en.
    + destruct fuel as [|fuel]; [lia|]. cbn [Async.run_alone Async.at_pc Async.resume].
      unfold build_indices. cbn [set_graphiti emit events] in HB |- *.
      unfold count in HB |- *. cbn [List.filter is_build] in HB |- *. rewrite HB.
      unfold Async.after_return, as_seen_by. cbn [Async.entry_point].
      destruct en; cbn; apply run_alone_done.
  - pose proof (stop_not_last n r Hn) as Hstop.
    simpl retry_from. unfold Async.begin_attempt.
    destruct (body_cases e (emit (EvAttempt n) w)) as [h H|msg H HG|msg H HG HB|H HG HB];
      rewrite H; unfold Graphiti; rewrite ?HG; cbn beta iota; cbn [fst snd].
    + unfold Async.after_return, as_seen_by.
      destruct en; cbn [fst snd]; rewrite ?H; apply run_alone_done.
    + unfold Async.after_raise. rewrite Hstop. cbn [fst snd].
      destruct fuel as [|fuel]; [lia|]. cbn [Async.run_alone Async.at_pc Async.resume].
      cbn [Async.entry_point]. apply IH; lia.
    + destruct fuel as [|[|fuel]]; try lia.
      cbn [Async.run_alone Async.at_pc Async.resume].
      unfold build_indices. cbn [set_graphiti emit events] in HB |- *.
      unfold count in HB |- *. cbn [List.filter is_build] in HB |- *. rewrite HB.
      unfold Async.after_raise. rewrite Hstop.
      cbn [Async.run_alone Async.at_pc Async.resume Async.entry_point].
      apply (IH (S n) _ en fuel); lia.
    + destruct fuel as [|fuel]; [lia|]. cbn [Async.run_alone Async.at_pc Async.resume].
      unfold build_indices. cbn [set_graphiti emit events] in HB |- *.
      unfold count in HB |- *. cbn [List.filter is_build] in HB |- *. rewrite HB.
      unfold Async.after_return, as_seen_by. cbn [Async.entry_point].
      destruct en; cbn; apply run_alone_done.
Qed.

(** A single task started on [initialize_graphiti] computes what the
    run-to-completion embedding computes, in at most 6 resumptions. *)
Lemma run_alone_initialize fuel w :
  6 <= fuel ->
  Async.run_alone e fuel
    {| Async.entry_point := Async.call_initialize_graphiti; Async.at_pc := Async.Created |} w
  = Some (initialize_graphiti e w).
Proof.
  intros Hfuel. destruct fuel as [|fuel]; [lia|].
  cbn [Async.run_alone Async.at_pc Async.resume Async.entry_point].
  rewrite (begin_attempt_refines 2 1 w Async.call_initialize_graphiti fuel); [|reflexivity|lia].
  unfold as_seen_by. reflexivity.
Qed.

Lemma run_alone_get fuel w :
  6 <= fuel ->
  Async.run_alone e fuel
    {| Async.entry_point := Async.call_get_graphiti; Async.at_pc := Async.Created |} w
  = Some (get_graphiti e w).
Proof.
  intros Hfuel. destruct fuel as [|fuel]; [lia|].
  cbn [Async.run_alone Async.at_pc Async.resume Async.entry_point].
  destruct (_graphiti (self w)) as [h|] eqn:H.
  - rewrite run_alone_done. now rewrite (get_graphiti_ready e w h H).
  - rewrite (begin_attempt_refines 2 1 w Async.call_get_graphiti fuel); [|reflexivity|lia].
    rewrite (get_graphiti_lazy e w H). unfold as_seen_by, initialize_graphiti, retry.
    change (Tenacity.attempts_left decorator_stop 1) with 2.
    destruct (retry_from decorator_wait 2 1 (initialize_graphiti_body e) w) as [w' [v|x]];
      reflexivity.
Qed.

End Alone.

(** ** The search endpoint *)

Lemma serialize_all_from (acc : list Serializable) (hits : list SearchHit) :
  fold_left (fun rs r => (rs ++ [serialize r])%list) hits acc
  = (acc ++ List.map serialize hits)%list.
Proof.
  revert acc. induction hits as [|r hits IH]; intros acc; cbn.
  - now rewrite app_nil_r.
  - rewrite IH, <- app_assoc. reflexivity.
Qed.

Lemma serialize_all_map (hits : list SearchHit) :
  serialize_all hits = List.map serialize hits.
Proof. unfold serialize_all. now rewrite serialize_all_from. Qed.

Lemma validate_results_to_dict (hits : list SearchHit) :
  Forall (fun r => is_Some (to_dict r)) hits ->
  exists ds, validate_results (List.map serialize hits) = Some ds
             /\ Forall2 (fun r d => to_dict r = Some d) hits ds.
Proof.
  induction 1 as [|r hits [d Hd] _ (ds & IH1 & IH2)]; cbn.
  - exists []. split; [reflexivity|constructor].
  - exists (d :: ds). unfold serialize at 1. rewrite Hd. cbn. rewrite IH1.
    split; [reflexivity|]. now constructor.
Qed.

(** A hit without [to_dict] and with a non-empty string form makes the
    response model refuse the list. *)
Lemma validate_results_plain (hits : list SearchHit) (r : SearchHit) :
  r ∈ hits -> to_dict r = None -> str r <> "" ->
  validate_results (List.map serialize hits) = None.
Proof.
  intros Hin Hnone Hstr. induction Hin as [r hits|r r' hits Hin IH]; cbn.
  - unfold serialize at 1. rewrite Hnone. cbn.
    destruct (String.eqb_spec (str r) ""); [contradiction|reflexivity].
  - rewrite (IH Hnone Hstr). now destruct (dict_validator (serialize r')).
Qed.

(** X25: the scenario when every hit has [to_dict]: the response counts the
    hits, carries their dictionaries in order, and echoes the query. *)
Lemma search_graph_response (e : Engine) (s : Settings) (req : SearchRequest.t)
    (p p1 : Process) (h : Handle) (hits : list SearchHit) :
  truthy (SearchRequest.center_node_uuid req) = false ->
  obtain_handle e s p = (p1, Returns (Some h)) ->
  search_call e h (SearchRequest.query req) None (SearchRequest.limit req)
    (count is_search (outside p1)) = Returns hits ->
  Forall (fun r => is_Some (to_dict r)) hits ->
  exists p2 resp,
    search_graph e s req p = (p2, Returns resp)
    /\ SearchResponse.total_count resp = Z.of_nat (length hits)
    /\ Forall2 (fun r d => to_dict r = Some d) hits (SearchResponse.results resp)
    /\ SearchResponse.query resp = SearchRequest.query req.
Proof.
  intros Hc Hh Hs Hall. unfold obtain_handle, bind in Hh.
  unfold search_graph, try_except, bind.
  destruct (get_manager s p) as [p0 [[]|x]]; [|discriminate].
  destruct (on_manager (get_graphiti e) p0) as [p1' [g|x]] eqn:Hon; [|discriminate].
  injection Hh as -> ->. cbn [deref ret]. rewrite Hc.
  unfold on_manager in Hon |- *.
  destruct (graphiti_manager p0) as [mgr0|]; [|discriminate].
  destruct (get_graphiti e _) as [w1 r1]. injection Hon as <- _.
  cbn [graphiti_manager outside] in *. unfold graphiti_search. cbn [emit self events].
  rewrite Hs.
  destruct (validate_results_to_dict hits Hall) as (ds & Hv & Hds).
  unfold new_SearchResponse. rewrite serialize_all_map, Hv. cbn.
  eexists _, _. split; [reflexivity|]. cbn. auto.
Qed.

Lemma search_graph_response_witness :
  let e := mock never never (Returns hits_with_to_dict) (Returns true) in
  exists p2 resp,
    search_graph e test_settings scenario_request new_process = (p2, Returns resp)
    /\ SearchResponse.total_count resp = 3%Z
    /\ Forall2 (fun r d => to_dict r = Some d) hits_with_to_dict (SearchResponse.results resp)
    /\ SearchResponse.query resp = "who works where".
Proof.
  cbn zeta.
  eapply (search_graph_response _ test_settings scenario_request new_process _ 0
            hits_with_to_dict); try reflexivity.
  repeat constructor; eexists; reflexivity.
Defined.

(** C9 at its failing input: limit 10, no center node, a search that
    returns three hits of which one has no [to_dict].  The endpoint puts
    that hit's string form in the list, the response model refuses the
    list, and the endpoint answers with status 500 instead of a response. *)
Theorem search_graph_rejects_string_form :
  let e := mock never never (Returns hits_with_a_plain_one) (Returns true) in
  length hits_with_a_plain_one = 3
  /\ SearchRequest.limit scenario_request = 10%Z
  /\ SearchRequest.center_node_uuid scenario_request = None
  /\ serialize_all hits_with_a_plain_one
     = [of_dict {[ "uuid" := "e1" ]}; of_str "EntityEdge(e2)"; of_dict {[ "uuid" := "e3" ]}]
  /\ snd (search_graph e test_settings scenario_request new_process)
     = Raises (HTTPException 500 "Search failed: " (ValidationError "results")).
Proof. cbn zeta. repeat split; reflexivity. Qed.

(** * Further properties *)

(** ** The manager *)

(** X1: [get_graphiti] never returns None: when it returns, it returns the
    handle that is stored; when it raises, no handle was stored before the
    call and the exception is tenacity's [RetryError] around the last
    attempt's exception. *)
Theorem get_graphiti_never_none (e : Engine) (w : World) :
  match snd (get_graphiti e w) with
  | Returns v => exists h, v = Some h /\ _graphiti (self (fst (get_graphiti e w))) = Some h
  | Raises x => _graphiti (self w) = None /\ exists msg, x = RetryError (ExternalError msg)
  end.
Proof.
  destruct (_graphiti (self w)) as [h|] eqn:H.
  - rewrite (get_graphiti_ready e w h H). cbn. eauto.
  - rewrite (get_graphiti_lazy e w H).
    destruct (initialize_graphiti_effect e w) as (_ & _ & Hv & Hx & _).
    destruct (initialize_graphiti e w) as [w' [v|x]]; cbn [fst snd] in *.
    + destruct (Hv v eq_refl) as [-> [h Hh]]. eauto.
    + split; [reflexivity|]. now apply Hx.
Qed.

(** X2: once [get_graphiti] has returned a handle, every later call
    returns the same handle without changing the state or calling anything,
    whatever the external services do by then. *)
Theorem get_graphiti_cached (e e' : Engine) (w : World) (v : option Handle) :
  snd (get_graphiti e w) = Returns v ->
  get_graphiti e' (fst (get_graphiti e w)) = (fst (get_graphiti e w), Returns v).
Proof.
  intros H. pose proof (get_graphiti_never_none e w) as Hn. rewrite H in Hn.
  destruct Hn as (h & -> & Hh). now apply get_graphiti_ready.
Qed.

Lemma get_graphiti_cached_witness :
  let e := mock (first 1) never (Returns []) (Returns true) in
  let e' := mock always always (Raises (ExternalError "down")) (Returns false) in
  let w := fresh test_settings in
  snd (get_graphiti e w) = Returns (Some 1)
  /\ get_graphiti e' (fst (get_graphiti e w)) = (fst (get_graphiti e w), Returns (Some 1)).
Proof.
  split; [reflexivity|].
  apply (get_graphiti_cached _ _ _ (Some 1)). reflexivity.
Defined.

Lemma forallb_lifecycle_app (a b : list Event) :
  forallb lifecycle_event a = true -> forallb lifecycle_event b = true ->
  forallb lifecycle_event (a ++ b) = true.
Proof. intros Ha Hb. rewrite forallb_app, Ha, Hb. reflexivity. Qed.

Lemma body_lifecycle (e : Engine) (w : World) :
  exists new, events (fst (initialize_graphiti_body e w)) = (new ++ events w)%list
              /\ forallb lifecycle_event new = true.
Proof.
  destruct (body_cases e w) as [h H|msg H HG|msg H HG HB|H HG HB]; cbn.
  - exists []. auto.
  - eexists [_]. split; reflexivity.
  - eexists [_; _]. split; reflexivity.
  - eexists [_; _]. split; reflexivity.
Qed.

Lemma retry_from_lifecycle (e : Engine) (wt : Tenacity.wait_policy) (r : nat) :
  forall n w,
    exists new,
      events (fst (retry_from wt r n (initialize_graphiti_body e) w)) = (new ++ events w)%list
      /\ forallb lifecycle_event new = true.
Proof.
  induction r as [|r IH]; intros n w; simpl retry_from;
    destruct (body_lifecycle e (emit (EvAttempt n) w)) as (new & Hev & Hl);
    destruct (initialize_graphiti_body e (emit (EvAttempt n) w)) as [w1 [v|x]];
    cbn [fst snd] in *;
    try (exists (new ++ [EvAttempt n])%list; rewrite Hev, <- app_assoc;
         split; [reflexivity|]; apply forallb_lifecycle_app; [exact Hl|reflexivity]).
  destruct (IH (S n) (emit (EvSleep (Tenacity.wait wt n)) w1)) as (new' & Hev' & Hl').
  exists (new' ++ EvSleep (Tenacity.wait wt n) :: new ++ [EvAttempt n])%list.
  split.
  - rewrite Hev'. cbn. rewrite Hev. cbn. rewrite <- !app_assoc. cbn.
    rewrite <- !app_assoc. reflexivity.
  - apply forallb_lifecycle_app; [exact Hl'|]. cbn.
    apply forallb_lifecycle_app; [exact Hl|reflexivity].
Qed.

(** X3: [initialize_graphiti] only ever talks to the Graphiti engine: all
    it adds to the record are attempts, constructor calls, index builds and
    sleeps (no search, no call of the Gemini model), at most three
    constructor calls, and it leaves the settings of the manager as they
    were. *)
Theorem initialize_graphiti_footprint (e : Engine) (w : World) :
  let w' := fst (initialize_graphiti e w) in
  forallb lifecycle_event (added w w') = true
  /\ constructions (added w w') <= 3
  /\ installations (added w w') <= 1
  /\ settings (self w') = settings (self w).
Proof.
  cbn zeta.
  destruct (retry_from_lifecycle e decorator_wait 2 1 w) as (new & Hev & Hl).
  destruct (initialize_graphiti_effect e w)
    as (Hs & _ & _ & _ & new' & k & Hev' & Hk & _ & _ & _ & Hco & Hin).
  rewrite (added_app new' _ _ Hev').
  assert (new = new') as <-.
  { change (retry_from decorator_wait 2 1 (initialize_graphiti_body e) w)
      with (initialize_graphiti e w) in Hev.
    rewrite Hev in Hev'. now apply app_inv_tail in Hev'. }
  split; [exact Hl|]. split; [lia|]. split; [|exact Hs].
  rewrite Hin. destruct (has_handle w); [lia|]. destruct (has_handle _); lia.
Qed.

(** X4: a call of [initialize_graphiti] that raises has raised
    [RetryError], found no handle stored, made exactly three attempts and
    slept 4 seconds twice in between. *)
Theorem initialize_graphiti_failure (e : Engine) (w : World) (x : exn) :
  snd (initialize_graphiti e w) = Raises x ->
  (exists msg, x = RetryError (ExternalError msg))
  /\ _graphiti (self w) = None
  /\ attempts (added w (fst (initialize_graphiti e w))) = 3
  /\ delays (added w (fst (initialize_graphiti e w))) = [4; 4]%Z.
Proof.
  intros H.
  destruct (initialize_graphiti_effect e w) as (_ & _ & _ & Hx & _).
  split; [now apply Hx|]. split.
  - destruct (_graphiti (self w)) as [h|] eqn:Hh; [|reflexivity].
    rewrite (initialize_graphiti_ready e w h Hh) in H. discriminate.
  - assert (Hf : succeeded (snd (initialize_graphiti e w)) = false) by now rewrite H.
    split; [|now apply failing_run_delays].
    destruct (delays_of_run e w) as (k & _ & Hk & Hat & _). now rewrite Hat, (Hk Hf).
Qed.

Lemma initialize_graphiti_failure_witness :
  let e := mock always never (Returns []) (Returns true) in
  let w := fresh test_settings in
  snd (initialize_graphiti e w) = Raises (RetryError (ExternalError "connection refused"))
  /\ (exists msg, RetryError (ExternalError "connection refused") = RetryError (ExternalError msg))
  /\ _graphiti (self w) = None
  /\ attempts (added w (fst (initialize_graphiti e w))) = 3
  /\ delays (added w (fst (initialize_graphiti e w))) = [4; 4]%Z.
Proof.
  split; [reflexivity|].
  apply (initialize_graphiti_failure (mock always never (Returns []) (Returns true))
           (fresh test_settings)).
  reflexivity.
Defined.

(** ** The health probes *)

Lemma lifecycle_no_probe (l : list Event) :
  forallb lifecycle_event l = true ->
  List.filter is_search l = [] /\ List.filter is_generate l = []
  /\ List.filter is_generative_model l = [].
Proof.
  induction l as [|ev l IH]; cbn; [auto|].
  intros H. apply andb_true_iff in H as [Hev Hl].
  destruct (IH Hl) as (H1 & H2 & H3).
  destruct ev; cbn in *; try discriminate; auto.
Qed.

Lemma get_graphiti_lifecycle (e : Engine) (w : World) :
  exists new, events (fst (get_graphiti e w)) = (new ++ events w)%list
              /\ forallb lifecycle_event new = true.
Proof.
  destruct (_graphiti (self w)) as [h|] eqn:H.
  - rewrite (get_graphiti_ready e w h H). exists []. auto.
  - rewrite (get_graphiti_lazy e w H).
    destruct (retry_from_lifecycle e decorator_wait 2 1 w) as (new & Hev & Hl).
    change (retry_from decorator_wait 2 1 (initialize_graphiti_body e) w)
      with (initialize_graphiti e w) in Hev.
    exists new. destruct (initialize_graphiti e w) as [w' [v|x]]; auto.
Qed.

(** The model probe: the constructor of the model object, then, if that
    returned, one generation call. *)
Lemma gemini_probe_cases (e : Engine) (w : World) :
  let m := gemini_model (settings (self w)) in
  match GenerativeModel_call e m (count is_generative_model (events w)) with
  | Some msg =>
      gemini_probe e w = (emit (EvGenerativeModel m) w, Raises (ExternalError msg))
  | None =>
      gemini_probe e w
      = (emit (EvGenerate m "Hello") (emit (EvGenerativeModel m) w),
         generate_content_call e m "Hello" (count is_generate (events w)))
  end.
Proof.
  cbn zeta. unfold gemini_probe, bind, read_settings, GenerativeModel.
  destruct (GenerativeModel_call e _ _); reflexivity.
Qed.

(** The engine probe: the handle, then one search. *)
Lemma graphiti_probe_cases (e : Engine) (w : World) :
  let res := get_graphiti e w in
  match snd res with
  | Returns (Some h) =>
      graphiti_probe e w
      = (emit (EvSearch h "health_check" None 1) (fst res),
         match search_call e h "health_check" None 1 (count is_search (events (fst res))) with
         | Returns _ => Returns tt
         | Raises x => Raises x
         end)
  | Returns None => graphiti_probe e w = (fst res, Raises (ExternalError "AttributeError"))
  | Raises x => graphiti_probe e w = (fst res, Raises x)
  end.
Proof.
  cbn zeta. unfold graphiti_probe, bind.
  destruct (get_graphiti e w) as [w1 [[h|]|x]]; cbn [fst snd]; try reflexivity.
  cbn [deref ret]. unfold graphiti_search.
  destruct (search_call e h "health_check" None 1 _); reflexivity.
Qed.

(** X6: on a manager that holds a handle, [health_check] constructs
    nothing and leaves the manager as it was; "graphiti" and "neo4j" are
    healthy exactly when the one search returns, whatever it returns (an
    empty result list counts as healthy). *)
Theorem health_check_when_ready (e : Engine) (w : World) (h : Handle) :
  _graphiti (self w) = Some h ->
  let res := health_check e w in
  let graph := status_of_bool
                 (succeeded (search_call e h "health_check" None 1 (count is_search (events w)))) in
  self (fst res) = self w
  /\ constructions (events (fst res)) = constructions (events w)
  /\ exists report, snd res = Returns report
       /\ report !! "graphiti" = Some graph /\ report !! "neo4j" = Some graph.
Proof.
  intros H. cbn zeta. rewrite health_check_unfold. cbn zeta. cbn [fst snd].
  pose proof (gemini_probe_cases e w) as Hc1. cbn zeta in Hc1.
  assert (H1 : self (fst (gemini_probe e w)) = self w
               /\ constructions (events (fst (gemini_probe e w))) = constructions (events w)
               /\ count is_search (events (fst (gemini_probe e w))) = count is_search (events w)).
  { destruct (GenerativeModel_call e _ _); rewrite Hc1; cbn; auto. }
  destruct H1 as (Hself & Hcons & Hsearch).
  set (w1 := fst (gemini_probe e w)) in *.
  assert (Hh1 : _graphiti (self w1) = Some h) by now rewrite Hself.
  pose proof (graphiti_probe_cases e w1) as Hc. cbn zeta in Hc.
  rewrite (get_graphiti_ready e w1 h Hh1) in Hc. cbn [fst snd] in Hc. rewrite Hc.
  cbn [fst snd]. rewrite Hsearch.
  split; [exact Hself|]. split; [exact Hcons|].
  eexists. split; [reflexivity|].
  assert (Hsucc : forall o : outcome (list SearchHit),
             succeeded (match o with Returns _ => Returns tt | Raises x => Raises x end)
             = succeeded o) by (intros [|]; reflexivity).
  rewrite Hsucc. split.
  - rewrite lookup_insert_ne by done. now rewrite lookup_insert_eq.
  - now rewrite lookup_insert_eq.
Qed.

Lemma health_check_when_ready_witness :
  let e := mock never never (Returns []) (Returns true) in
  let w := fst (initialize_graphiti e (fresh test_settings)) in
  _graphiti (self w) = Some 0
  /\ self (fst (health_check e w)) = self w
  /\ constructions (events (fst (health_check e w))) = constructions (events w)
  /\ exists report, snd (health_check e w) = Returns report
       /\ report !! "graphiti" = Some "healthy" /\ report !! "neo4j" = Some "healthy".
Proof.
  split; [reflexivity|].
  apply (health_check_when_ready (mock never never (Returns []) (Returns true)) _ 0).
  reflexivity.
Defined.

(** X7: the "gemini" entry is healthy exactly when the model object could
    be constructed and the generation call returned a truthy response; it
    does not depend on the Graphiti engine or on the state of the manager. *)
Theorem health_check_gemini_entry (e : Engine) (w : World) :
  let m := gemini_model (settings (self w)) in
  let verdict :=
    match GenerativeModel_call e m (count is_generative_model (events w)) with
    | Some _ => "unhealthy"
    | None =>
        match generate_content_call e m "Hello" (count is_generate (events w)) with
        | Returns true => "healthy"
        | _ => "unhealthy"
        end
    end in
  exists report, snd (health_check e w) = Returns report /\ report !! "gemini" = Some verdict.
Proof.
  cbn zeta. rewrite health_check_unfold. cbn zeta. cbn [snd].
  eexists. split; [reflexivity|].
  rewrite !lookup_insert_ne by done. rewrite lookup_insert_eq.
  pose proof (gemini_probe_cases e w) as Hc. cbn zeta in Hc.
  destruct (GenerativeModel_call e _ _); rewrite Hc; cbn [snd]; [reflexivity|].
  destruct (generate_content_call e _ _ _) as [[|]|]; reflexivity.
Qed.

Lemma initialize_graphiti_installs (e : Engine) (w : World) :
  _graphiti (self w) = None ->
  Graphiti_call e (graphiti_args_of (settings (self w))) (constructions (events w)) = None ->
  _graphiti (self (fst (initialize_graphiti e w))) = Some (constructions (events w)).
Proof.
  intros Hnone HG. unfold initialize_graphiti, retry.
  change (Tenacity.attempts_left decorator_stop 1) with 2. simpl retry_from.
  destruct (body_cases e (emit (EvAttempt 1) w)) as [h H|m H HG'|m H HG' HB'|H HG' HB'];
    cbn in H; try congruence;
    try (exfalso; cbn in HG'; unfold constructions, count in *; congruence).
  - erewrite body_ready by reflexivity. reflexivity.
  - reflexivity.
Qed.

Lemma gemini_probe_quiet (e : Engine) (w : World) :
  exists new1,
    events (fst (gemini_probe e w)) = (new1 ++ events w)%list
    /\ self (fst (gemini_probe e w)) = self w
    /\ forallb (fun ev => negb (lifecycle_event ev)) new1 = true.
Proof.
  pose proof (gemini_probe_cases e w) as Hc. cbn zeta in Hc.
  destruct (GenerativeModel_call e _ _); rewrite Hc.
  - eexists [_]. cbn. auto.
  - eexists [_; _]. cbn. auto.
Qed.

Lemma quiet_counts (l : list Event) :
  forallb (fun ev => negb (lifecycle_event ev)) l = true ->
  constructions l = 0 /\ attempts l = 0 /\ sleeps_newest_first l = [].
Proof.
  induction l as [|ev l IH]; [cbn; auto|].
  intros H. cbn [forallb] in H. apply andb_true_iff in H as [Hev Hl].
  destruct (IH Hl) as (H1 & H2 & H3).
  unfold constructions, attempts in *. rewrite !count_cons, H1, H2.
  destruct ev; cbn in *; try discriminate; auto.
Qed.

(** X8: a health check is also a first use: on a manager without handle,
    when the Graphiti constructor returns, [health_check] leaves the newly
    constructed handle stored in the manager. *)
Theorem health_check_initializes (e : Engine) (w : World) :
  _graphiti (self w) = None ->
  Graphiti_call e (graphiti_args_of (settings (self w))) (constructions (events w)) = None ->
  _graphiti (self (fst (health_check e w))) = Some (constructions (events w)).
Proof.
  intros Hnone HG. rewrite health_check_unfold. cbn zeta. cbn [fst].
  destruct (gemini_probe_quiet e w) as (new1 & Hev1 & Hself1 & Hq).
  destruct (quiet_counts new1 Hq) as (Hc1 & _ & _).
  set (w1 := fst (gemini_probe e w)) in *.
  assert (Hcons : constructions (events w1) = constructions (events w)).
  { rewrite Hev1. unfold constructions in *. rewrite count_app, Hc1. reflexivity. }
  assert (Hnone1 : _graphiti (self w1) = None) by now rewrite Hself1.
  assert (Hinit : _graphiti (self (fst (initialize_graphiti e w1)))
                  = Some (constructions (events w))).
  { rewrite <- Hcons. apply initialize_graphiti_installs; [exact Hnone1|].
    now rewrite Hself1, Hcons. }
  assert (Hget : fst (get_graphiti e w1) = fst (initialize_graphiti e w1)).
  { rewrite (get_graphiti_lazy e w1 Hnone1).
    now destruct (initialize_graphiti e w1) as [w' [v|x]]. }
  pose proof (graphiti_probe_cases e w1) as Hc. cbn zeta in Hc.
  destruct (snd (get_graphiti e w1)) as [[h|]|x]; rewrite Hc; cbn [fst emit self];
    now rewrite Hget.
Qed.

Lemma health_check_initializes_witness :
  let e := mock never always (Returns []) (Raises (ExternalError "quota")) in
  let w := fresh test_settings in
  _graphiti (self w) = None
  /\ Graphiti_call e (graphiti_args_of (settings (self w))) (constructions (events w)) = None
  /\ _graphiti (self (fst (health_check e w))) = Some (constructions (events w)).
Proof.
  split; [reflexivity|]. split; [reflexivity|].
  apply (health_check_initializes
           (mock never always (Returns []) (Raises (ExternalError "quota")))
           (fresh test_settings)); reflexivity.
Defined.

(** X9: on a manager without handle, when the Graphiti constructor always
    raises, [health_check] goes through the whole retry sequence, three
    constructor calls with two sleeps of 4 seconds, before it reports
    "graphiti" and "neo4j" unhealthy, and the manager still has no handle. *)
Theorem health_check_engine_down (e : Engine) (w : World) :
  _graphiti (self w) = None ->
  (forall i, Graphiti_call e (graphiti_args_of (settings (self w))) i <> None) ->
  let res := health_check e w in
  _graphiti (self (fst res)) = None
  /\ constructions (added w (fst res)) = 3
  /\ delays (added w (fst res)) = [4; 4]%Z
  /\ exists report, snd res = Returns report
       /\ report !! "graphiti" = Some "unhealthy" /\ report !! "neo4j" = Some "unhealthy".
Proof.
  intros Hnone Hfail. cbn zeta. rewrite health_check_unfold. cbn zeta. cbn [fst snd].
  destruct (gemini_probe_quiet e w) as (new1 & Hev1 & Hself1 & Hq).
  destruct (quiet_counts new1 Hq) as (Hc1 & _ & Hs1).
  set (w1 := fst (gemini_probe e w)) in *.
  assert (Hnone1 : _graphiti (self w1) = None) by now rewrite Hself1.
  destruct (retry_from_always_fails e decorator_wait 2 1 w1 Hnone1)
    as ([msg Hx] & _ & Hcons & Hh); [now rewrite Hself1|].
  change (retry_from decorator_wait 2 1 (initialize_graphiti_body e) w1)
    with (initialize_graphiti e w1) in *.
  assert (Hfailed : succeeded (snd (initialize_graphiti e w1)) = false) by now rewrite Hx.
  pose proof (failing_run_delays e w1 Hfailed) as Hd.
  destruct (initialize_graphiti_effect e w1) as (_ & _ & _ & _ & new & k & Hev & _).
  rewrite (added_app new _ _ Hev) in Hd.
  assert (Hget : get_graphiti e w1
                 = (fst (initialize_graphiti e w1), Raises (RetryError (ExternalError msg)))).
  { rewrite (get_graphiti_lazy e w1 Hnone1).
    destruct (initialize_graphiti e w1) as [w' [v|x]]; cbn in Hx |- *; congruence. }
  pose proof (graphiti_probe_cases e w1) as Hc. cbn zeta in Hc.
  rewrite Hget in Hc. cbn [fst snd] in Hc. rewrite Hc. cbn [fst snd succeeded status_of_bool].
  split; [exact Hh|].
  rewrite (added_app (new ++ new1) w).
  2:{ rewrite Hev, Hev1, <- app_assoc. reflexivity. }
  split.
  { rewrite Hev in Hcons. unfold constructions in *. rewrite count_app in *.
    rewrite Hc1. lia. }
  split.
  { unfold delays in *. rewrite sleeps_app, Hs1, app_nil_r. exact Hd. }
  eexists. split; [reflexivity|]. split.
  - rewrite lookup_insert_ne by done. now rewrite lookup_insert_eq.
  - now rewrite lookup_insert_eq.
Qed.

Lemma health_check_engine_down_witness :
  let e := mock always never (Returns []) (Returns true) in
  let w := fresh test_settings in
  let res := health_check e w in
  _graphiti (self w) = None
  /\ (forall i, Graphiti_call e (graphiti_args_of (settings (self w))) i <> None)
  /\ _graphiti (self (fst res)) = None
  /\ constructions (added w (fst res)) = 3
  /\ delays (added w (fst res)) = [4; 4]%Z
  /\ exists report, snd res = Returns report
       /\ report !! "graphiti" = Some "unhealthy" /\ report !! "neo4j" = Some "unhealthy".
Proof.
  split; [reflexivity|]. split; [apply mock_always_fails|].
  apply (health_check_engine_down (mock always never (Returns []) (Returns true))
           (fresh test_settings)); [reflexivity|apply mock_always_fails].
Defined.

(** ** Bounds on interleaved callers *)

Lemma sum_list_with_insert {A} (f : A -> nat) (l : list A) (i : nat) (x y : A) :
  l !! i = Some x ->
  sum_list_with f (<[i:=y]> l) + f x = sum_list_with f l + f y.
Proof.
  revert i. induction l as [|a l IH]; intros i Hi; [discriminate|].
  destruct i as [|i].
  - cbn in Hi |- *. injection Hi as ->. lia.
  - change (<[S i:=y]> (a :: l)) with (a :: <[i:=y]> l). cbn [sum_list_with].
    specialize (IH i Hi). lia.
Qed.

Section Bounds.

Variable e : Engine.

Lemma begin_attempt_bounds en n w :
  1 <= n <= 3 ->
  let w' := fst (Async.begin_attempt e en n w) in
  let t' := {| Async.entry_point := en; Async.at_pc := snd (Async.begin_attempt e en n w) |} in
  task_bounded t'
  /\ resumptions_left t' <= 2 * (3 - n) + 1
  /\ n <= attempts_started t'
  /\ constructions (events w') <= constructions (events w) + 1.
Proof.
  intros Hn. cbn zeta.
  unfold Async.begin_attempt, Async.after_return, Async.after_raise, Graphiti,
    task_bounded, resumptions_left, attempts_started, constructions.
  cbn [emit self events _graphiti].
  destruct (_graphiti (self w)) as [h|].
  - destruct en; cbn; rewrite ?count_cons; cbn; repeat split; unfold count; lia.
  - rewrite !count_cons. cbn [is_graphiti Nat.add].
    destruct (Graphiti_call e _ _) as [msg|].
    + unfold decorator_stop, Tenacity.stop.
      destruct (Nat.leb_spec 3 n); cbn; rewrite ?count_cons; cbn; repeat split; unfold count; lia.
    + cbn. rewrite ?count_cons. cbn. repeat split; unfold count; lia.
Qed.

Lemma resume_bounds t w w' p :
  task_bounded t ->
  Async.resume e t w = Some (w', p) ->
  let t' := {| Async.entry_point := Async.entry_point t; Async.at_pc := p |} in
  task_bounded t'
  /\ resumptions_left t' < resumptions_left t
  /\ constructions (events w') + attempts_started t
     <= constructions (events w) + attempts_started t'.
Proof.
  intros Hb Hres. cbn zeta. unfold Async.resume in Hres.
  destruct t as [en pc]. cbn [Async.at_pc Async.entry_point] in *.
  unfold task_bounded in Hb. cbn [Async.at_pc] in Hb.
  destruct pc as [|n h|n|r].
  - assert (Hcases : (w', p) = Async.begin_attempt e en 1 w
                     \/ exists h, w' = w /\ p = Async.Done (Returns (Some h))).
    { destruct en; [left; congruence|].
      destruct (_graphiti (self w)) as [h|]; [right|left]; [|congruence].
      injection Hres as <- <-. eauto. }
    destruct Hcases as [Hbeg|(h & -> & ->)].
    + pose proof (begin_attempt_bounds en 1 w ltac:(lia)) as HB.
      rewrite <- Hbeg in HB. cbn zeta in HB. cbn [fst snd] in HB.
      destruct HB as (H1 & H2 & H3 & H4).
      split; [exact H1|]. unfold resumptions_left at 2, attempts_started at 1. cbn. lia.
    + unfold task_bounded, resumptions_left, attempts_started. cbn. lia.
  - unfold build_indices in Hres.
    destruct (build_indices_call e h _) as [msg|].
    + unfold Async.after_raise, decorator_stop, Tenacity.stop in Hres.
      destruct (Nat.leb_spec 3 n); injection Hres as <- <-;
        unfold task_bounded, resumptions_left, attempts_started, constructions;
        cbn [emit events Async.at_pc]; rewrite ?count_cons; cbn; repeat split; unfold count; lia.
    + unfold Async.after_return in Hres.
      destruct en; injection Hres as <- <-;
        unfold task_bounded, resumptions_left, attempts_started, constructions;
        cbn [emit events Async.at_pc]; rewrite ?count_cons; cbn; repeat split; unfold count; lia.
  - injection Hres as Hres.
    pose proof (begin_attempt_bounds en (S n) w ltac:(lia)) as HB.
    rewrite Hres in HB. cbn zeta in HB. cbn [fst snd] in HB.
    destruct HB as (H1 & H2 & H3 & H4).
    split; [exact H1|]. unfold resumptions_left at 2, attempts_started at 1. cbn [Async.at_pc].
    lia.
  - discriminate.
Qed.

Lemma bounds_run i sys sys' :
  within_bounds sys ->
  Async.run e i sys = Some sys' ->
  within_bounds sys'
  /\ length (Async.tasks sys') = length (Async.tasks sys)
  /\ S (sum_list_with resumptions_left (Async.tasks sys'))
     <= sum_list_with resumptions_left (Async.tasks sys).
Proof.
  intros [Hall Hc] Hrun. unfold Async.run in Hrun.
  destruct (Async.tasks sys !! i) as [t|] eqn:Ht; [|discriminate].
  destruct (Async.resume e t (Async.world sys)) as [[w' p]|] eqn:Hres; [|discriminate].
  injection Hrun as <-. cbn [Async.world Async.tasks].
  assert (Hb : task_bounded t) by (rewrite Forall_lookup in Hall; exact (Hall i t Ht)).
  destruct (resume_bounds t _ _ _ Hb Hres) as (Hb' & Hlt & Hcons).
  pose proof (sum_list_with_insert attempts_started _ i t
                {| Async.entry_point := Async.entry_point t; Async.at_pc := p |} Ht).
  pose proof (sum_list_with_insert resumptions_left _ i t
                {| Async.entry_point := Async.entry_point t; Async.at_pc := p |} Ht).
  split; [split|split].
  - now apply Forall_insert.
  - cbn [Async.world Async.tasks]. lia.
  - apply length_insert.
  - lia.
Qed.

Lemma bounds_schedule sch : forall sys sys',
  within_bounds sys ->
  Async.run_schedule e sch sys = Some sys' ->
  within_bounds sys'
  /\ length (Async.tasks sys') = length (Async.tasks sys)
  /\ length sch + sum_list_with resumptions_left (Async.tasks sys')
     <= sum_list_with resumptions_left (Async.tasks sys).
Proof.
  induction sch as [|i sch IH]; intros sys sys' Hw Hrun; cbn in Hrun.
  - injection Hrun as <-. cbn. auto.
  - destruct (Async.run e i sys) as [sys1|] eqn:H1; [|discriminate].
    destruct (bounds_run i sys sys1 Hw H1) as (Hw1 & Hl1 & Hm1).
    destruct (IH sys1 sys' Hw1 Hrun) as (Hw' & Hl' & Hm').
    split; [exact Hw'|]. split; [congruence|]. cbn [length]. lia.
Qed.

Lemma bounds_spawn s entries :
  within_bounds (Async.spawn s entries)
  /\ sum_list_with resumptions_left (Async.tasks (Async.spawn s entries)) = 6 * length entries.
Proof.
  unfold within_bounds, Async.spawn. cbn [Async.tasks Async.world].
  induction entries as [|en entries [[IH1 IH2] IH3]]; cbn.
  - repeat split; auto.
  - split; [split; [constructor; [exact I|exact IH1]|lia]|].
    rewrite IH3. lia.
Qed.

Lemma started_at_most_three (ts : list Async.Task) :
  Forall task_bounded ts -> sum_list_with attempts_started ts <= 3 * length ts.
Proof.
  induction 1 as [|t ts Ht _ IH]; cbn; [lia|].
  assert (attempts_started t <= 3).
  { unfold task_bounded in Ht. unfold attempts_started.
    destruct (Async.at_pc t); lia. }
  lia.
Qed.

End Bounds.

(** X10: however N first callers are interleaved and whatever the engine
    does, the Graphiti constructor is called at most 3 N times. *)
Theorem constructions_bounded (e : Engine) (s : Settings) (entries : list Async.entry)
    (sch : list nat) (sys : Async.System) :
  Async.run_schedule e sch (Async.spawn s entries) = Some sys ->
  constructions (events (Async.world sys)) <= 3 * length entries.
Proof.
  intros Hrun.
  destruct (bounds_spawn s entries) as [Hw0 _].
  destruct (bounds_schedule e sch _ _ Hw0 Hrun) as ([Hall Hc] & Hlen & _).
  pose proof (started_at_most_three _ Hall) as H3.
  rewrite Hlen in H3. unfold Async.spawn in H3. cbn [Async.tasks] in H3.
  rewrite length_map in H3. lia.
Qed.

Lemma constructions_bounded_witness :
  let e := mock always never (Returns []) (Returns true) in
  let entries := [Async.call_get_graphiti; Async.call_initialize_graphiti] in
  let sch := [0; 1; 0; 1; 1; 0] in
  exists sys,
    Async.run_schedule e sch (Async.spawn test_settings entries) = Some sys
    /\ Async.all_done sys = true
    /\ constructions (events (Async.world sys)) = 6
    /\ constructions (events (Async.world sys)) <= 3 * length entries.
Proof.
  cbn zeta. eexists. split; [reflexivity|]. split; [reflexivity|]. split; [reflexivity|].
  eapply (constructions_bounded (mock always never (Returns []) (Returns true)) test_settings
            [Async.call_get_graphiti; Async.call_initialize_graphiti] [0; 1; 0; 1; 1; 0]).
  reflexivity.
Defined.

(** X12: interleaving never replaces the handle either: once a handle is
    stored, it is the stored handle in every state any schedule reaches
    afterwards. *)
Theorem handle_stable_interleaved (e : Engine) (s : Settings) (entries : list Async.entry)
    (sch sch' : list nat) (sys sys' : Async.System) (h : Handle) :
  Async.run_schedule e sch (Async.spawn s entries) = Some sys ->
  Async.run_schedule e sch' sys = Some sys' ->
  _graphiti (self (Async.world sys)) = Some h ->
  _graphiti (self (Async.world sys')) = Some h.
Proof.
  intros Hrun Hrun' Hh.
  eapply (handle_stable_schedule e s sch' sys sys'); eauto.
  eapply invariant_schedule; [apply invariant_spawn|exact Hrun].
Qed.

Lemma handle_stable_interleaved_witness :
  let e := mock never always (Returns []) (Returns true) in
  let entries := [Async.call_initialize_graphiti; Async.call_get_graphiti] in
  exists sys sys',
    Async.run_schedule e [0] (Async.spawn test_settings entries) = Some sys
    /\ Async.run_schedule e [1; 0; 0] sys = Some sys'
    /\ _graphiti (self (Async.world sys)) = Some 0
    /\ _graphiti (self (Async.world sys')) = Some 0.
Proof.
  cbn zeta. eexists. eexists. split; [reflexivity|]. split; [reflexivity|].
  split; [reflexivity|].
  eapply (handle_stable_interleaved (mock never always (Returns []) (Returns true))
            test_settings [Async.call_initialize_graphiti; Async.call_get_graphiti]
            [0] [1; 0; 0]); reflexivity.
Defined.

(** ** The endpoints *)

Lemma obtain_handle_unfold (e : Engine) (s : Settings) (p : Process) :
  obtain_handle e s p
  = (process_of (fst (get_graphiti e (world_of s p))), snd (get_graphiti e (world_of s p))).
Proof.
  unfold obtain_handle, bind, get_manager, on_manager, world_of, process_of.
  destruct (graphiti_manager p) as [mgr|] eqn:Hm; cbn -[get_graphiti]; rewrite ?Hm;
    cbn -[get_graphiti];
    match goal with |- context [get_graphiti e ?w] =>
      destruct (get_graphiti e w) as [w' r] end; reflexivity.
Qed.

Lemma on_manager_process_of {A} (m : M World A) (w : World) :
  on_manager m (process_of w) = (process_of (fst (m w)), snd (m w)).
Proof.
  unfold on_manager, process_of. cbn.
  destruct w as [mgr evs]. cbn. destruct (m _) as [w' r]. reflexivity.
Qed.

Lemma validate_results_length (vs : list Serializable) (ds : list (gmap string string)) :
  validate_results vs = Some ds -> length ds = length vs.
Proof.
  revert ds. induction vs as [|v vs IH]; intros ds; cbn.
  - now intros [= <-].
  - destruct (dict_validator v); [|discriminate].
    destruct (validate_results vs) as [ds'|]; [|discriminate].
    intros [= <-]. cbn. f_equal. now apply IH.
Qed.

Lemma bind_obtain {A} (e : Engine) (s : Settings) (k : option Handle -> M Process A)
    (p : Process) :
  (get_manager s ;; g <- on_manager (get_graphiti e) ;; k g) p
  = (g <- obtain_handle e s ;; k g) p.
Proof.
  unfold obtain_handle, bind.
  destruct (get_manager s p) as [p0 [[]|x]]; reflexivity.
Qed.

(** The paths through the search endpoint. *)
Lemma search_graph_cases (e : Engine) (s : Settings) (req : SearchRequest.t) (p : Process) :
  let res := get_graphiti e (world_of s p) in
  search_graph e s req p =
    match snd res with
    | Raises x => (process_of (fst res), Raises (search_failed x))
    | Returns None =>
        (process_of (fst res), Raises (search_failed (ExternalError "AttributeError")))
    | Returns (Some h) =>
        let w2 := emit (EvSearch h (SearchRequest.query req) (center_given req)
                          (SearchRequest.limit req)) (fst res) in
        match search_call e h (SearchRequest.query req) (center_given req)
                (SearchRequest.limit req) (count is_search (events (fst res))) with
        | Raises x => (process_of w2, Raises (search_failed x))
        | Returns hits =>
            match validate_results (List.map serialize hits) with
            | Some ds =>
                (process_of w2,
                 Returns {| SearchResponse.results := ds;
                            SearchResponse.total_count := Z.of_nat (length hits);
                            SearchResponse.query := SearchRequest.query req |})
            | None => (process_of w2, Raises (search_failed (ValidationError "results")))
            end
        end
    end.
Proof.
  cbn zeta. unfold search_graph, try_except.
  rewrite bind_obtain. unfold bind at 1.
  rewrite obtain_handle_unfold.
  destruct (get_graphiti e (world_of s p)) as [w1 [[h|]|x]]; cbn [fst snd]; try reflexivity.
  unfold bind, center_given. cbn [deref ret].
  destruct (truthy (SearchRequest.center_node_uuid req));
    rewrite on_manager_process_of; unfold graphiti_search; cbn [fst snd];
    destruct (search_call e h _ _ _ _) as [hits|x]; try reflexivity;
    unfold new_SearchResponse; rewrite serialize_all_map;
    destruct (validate_results _); reflexivity.
Qed.

(** X13: whatever goes wrong in the search endpoint comes out as a status
    500 error whose detail starts with "Search failed: "; and every
    response it returns counts its own results and echoes the query. *)
Theorem search_graph_outcome (e : Engine) (s : Settings) (req : SearchRequest.t)
    (p : Process) :
  match snd (search_graph e s req p) with
  | Returns resp =>
      SearchResponse.total_count resp = Z.of_nat (length (SearchResponse.results resp))
      /\ SearchResponse.query resp = SearchRequest.query req
  | Raises x => exists cause, x = HTTPException 500 "Search failed: " cause
  end.
Proof.
  rewrite search_graph_cases. cbn zeta.
  destruct (snd (get_graphiti e (world_of s p))) as [[h|]|x]; cbn [snd];
    try (eexists; reflexivity).
  destruct (search_call e h _ _ _ _) as [hits|x]; cbn [snd]; try (eexists; reflexivity).
  destruct (validate_results _) as [ds|] eqn:Hv; cbn [snd]; try (eexists; reflexivity).
  cbn. split; [|reflexivity].
  apply validate_results_length in Hv. rewrite Hv, length_map. reflexivity.
Qed.

(** X14: the engine is searched exactly once per request, with the query
    and the limit of the request unchanged and with its center node when
    that is a non-empty string; when no handle can be had the engine is not
    searched and the error of [get_graphiti] is what the 500 reports. *)
Theorem search_graph_forwards (e : Engine) (s : Settings) (req : SearchRequest.t)
    (p : Process) :
  match obtain_handle e s p with
  | (p1, Returns (Some h)) =>
      outside (fst (search_graph e s req p))
      = EvSearch h (SearchRequest.query req) (center_given req) (SearchRequest.limit req)
          :: outside p1
      /\ graphiti_manager (fst (search_graph e s req p)) = graphiti_manager p1
  | (p1, Returns None) => False
  | (p1, Raises x) => search_graph e s req p = (p1, Raises (search_failed x))
  end.
Proof.
  rewrite search_graph_cases, obtain_handle_unfold. cbn zeta.
  pose proof (get_graphiti_never_none e (world_of s p)) as Hn.
  destruct (get_graphiti e (world_of s p)) as [w1 [[h|]|x]]; cbn [fst snd] in *.
  - destruct (search_call e h _ _ _ _) as [hits|x]; [destruct (validate_results _)|];
      cbn; auto.
  - destruct Hn as (h & [=] & _).
  - reflexivity.
Qed.

(** X15: an empty string as center node is no center node: the request is
    answered exactly as the same request without it. *)
Theorem search_graph_empty_center (e : Engine) (s : Settings) (req : SearchRequest.t)
    (p : Process) :
  SearchRequest.center_node_uuid req = Some "" ->
  search_graph e s req p = search_graph e s (without_center req) p.
Proof.
  intros H. rewrite !search_graph_cases. unfold center_given, without_center. cbn zeta.
  cbn [SearchRequest.center_node_uuid SearchRequest.query SearchRequest.limit].
  rewrite H. reflexivity.
Qed.

Lemma search_graph_empty_center_witness :
  let e := mock never never (Returns hits_with_to_dict) (Returns true) in
  let req := {| SearchRequest.query := "q"; SearchRequest.limit := 5;
                SearchRequest.center_node_uuid := Some "" |} in
  SearchRequest.center_node_uuid req = Some ""
  /\ search_graph e test_settings req new_process
     = search_graph e test_settings (without_center req) new_process.
Proof.
  split; [reflexivity|].
  apply (search_graph_empty_center (mock never never (Returns hits_with_to_dict) (Returns true))
           test_settings
           {| SearchRequest.query := "q"; SearchRequest.limit := 5;
              SearchRequest.center_node_uuid := Some "" |} new_process).
  reflexivity.
Defined.

(** X16: one hit without [to_dict] whose string form is not empty is
    enough for the whole request to fail: the response model refuses the
    list and the endpoint answers 500, after the engine was searched. *)
Theorem search_graph_rejects_plain_hit (e : Engine) (s : Settings) (req : SearchRequest.t)
    (p p1 : Process) (h : Handle) (hits : list SearchHit) (r : SearchHit) :
  obtain_handle e s p = (p1, Returns (Some h)) ->
  search_call e h (SearchRequest.query req) (center_given req) (SearchRequest.limit req)
    (count is_search (outside p1)) = Returns hits ->
  r ∈ hits -> to_dict r = None -> str r <> "" ->
  snd (search_graph e s req p) = Raises (search_failed (ValidationError "results")).
Proof.
  intros Hh Hs Hin Hnone Hstr. rewrite search_graph_cases. cbn zeta.
  rewrite obtain_handle_unfold in Hh. injection Hh as <- Ho. rewrite Ho.
  cbn [process_of outside] in Hs. rewrite Hs.
  now rewrite (validate_results_plain hits r Hin Hnone Hstr).
Qed.

Lemma search_graph_rejects_plain_hit_witness :
  let e := mock never never (Returns hits_with_a_plain_one) (Returns true) in
  let r := {| to_dict := None; str := "EntityEdge(e2)" |} in
  exists p1,
    obtain_handle e test_settings new_process = (p1, Returns (Some 0))
    /\ r ∈ hits_with_a_plain_one
    /\ snd (search_graph e test_settings scenario_request new_process)
       = Raises (search_failed (ValidationError "results")).
Proof.
  cbn zeta. eexists. split; [reflexivity|]. split.
  - unfold hits_with_a_plain_one. apply list_elem_of_further, list_elem_of_here.
  - eapply (search_graph_rejects_plain_hit
              (mock never never (Returns hits_with_a_plain_one) (Returns true))
              test_settings scenario_request new_process _ 0 hits_with_a_plain_one
              {| to_dict := None; str := "EntityEdge(e2)" |}).
    + reflexivity.
    + reflexivity.
    + unfold hits_with_a_plain_one. apply list_elem_of_further, list_elem_of_here.
    + reflexivity.
    + discriminate.
Defined.

(** A method called on the global manager, after [get_manager]. *)
Lemma bind_on_manager {A B} (s : Settings) (m : M World A) (k : A -> M Process B)
    (p : Process) :
  (get_manager s ;; a <- on_manager m ;; k a) p
  = match m (world_of s p) with
    | (w, Returns a) => k a (process_of w)
    | (w, Raises x) => (process_of w, Raises x)
    end.
Proof.
  unfold bind, get_manager, on_manager, world_of, process_of.
  destruct (graphiti_manager p) as [mgr|] eqn:Hm; cbn [graphiti_manager outside from_option id];
    rewrite ?Hm;
    match goal with |- context [m ?w] => destruct (m w) as [w' [a|x]] end; reflexivity.
Qed.

Lemma world_of_warm (s : Settings) (p : Process) (mgr : GraphitiGeminiManager) :
  graphiti_manager p = Some mgr -> world_of s p = {| self := mgr; events := outside p |}.
Proof. unfold world_of. now intros ->. Qed.

Lemma health_endpoint_unfold (e : Engine) (s : Settings) (p : Process) :
  health_endpoint e s p =
    match health_check e (world_of s p) with
    | (w, Returns services_status) =>
        (process_of w,
         Returns {| HealthResponse.status :=
                      if bool_decide (map_Forall (fun _ status => status = "healthy")
                                        services_status)
                      then "healthy" else "unhealthy";
                    HealthResponse.services := services_status;
                    HealthResponse.version := "1.0.0" |})
    | (w, Raises x) =>
        (process_of w, Raises (HTTPException 500 "Health check failed" (ExternalError "")))
    end.
Proof.
  unfold health_endpoint, try_except. rewrite bind_on_manager.
  destruct (health_check e (world_of s p)) as [w [r|x]]; reflexivity.
Qed.

(** X17: the health endpoint always answers with a response, never with
    an error.  The response carries the report of the manager and version
    "1.0.0", and its status is healthy exactly when the model probe
    returned a truthy response and the engine probe did not raise. *)
Theorem health_endpoint_total (e : Engine) (s : Settings) (p : Process) :
  let r1 := gemini_probe e (world_of s p) in
  let r2 := graphiti_probe e (fst r1) in
  let model_ok := match snd r1 with Returns true => true | _ => false end in
  exists resp,
    health_endpoint e s p = (process_of (fst r2), Returns resp)
    /\ snd (health_check e (world_of s p)) = Returns (HealthResponse.services resp)
    /\ HealthResponse.version resp = "1.0.0"
    /\ HealthResponse.status resp
       = (if model_ok && succeeded (snd r2) then "healthy" else "unhealthy").
Proof.
  cbn zeta. rewrite health_endpoint_unfold, health_check_unfold. cbn zeta.
  eexists. split; [reflexivity|]. split; [reflexivity|]. split; [reflexivity|].
  cbn [HealthResponse.status].
  destruct (snd (gemini_probe e (world_of s p))) as [[|]|x];
    destruct (succeeded _); vm_compute; reflexivity.
Qed.

(** ** Ingestion and statistics *)

Lemma add_episode_cases (e : Engine) (ing : Ingest) (s : Settings)
    (ep : EpisodeRequest.t) (sv : Service) :
  let res := get_graphiti e (world_of s (process sv)) in
  let failed cause := HTTPException 500 "Failed to add episode: " cause in
  add_episode e ing s ep sv =
    match snd res with
    | Raises x =>
        ({| process := process_of (fst res); ingested := ingested sv |}, Raises (failed x))
    | Returns None =>
        ({| process := process_of (fst res); ingested := ingested sv |},
         Raises (failed (ExternalError "AttributeError")))
    | Returns (Some h) =>
        match ing h ep (length (ingested sv)) with
        | None =>
            ({| process := process_of (fst res); ingested := (h, ep, true) :: ingested sv |},
             Returns {| EpisodeResponse.success := true;
                        EpisodeResponse.message := "Episode added successfully";
                        EpisodeResponse.episode_name := EpisodeRequest.name ep |})
        | Some msg =>
            ({| process := process_of (fst res); ingested := (h, ep, false) :: ingested sv |},
             Raises (failed (ExternalError msg)))
        end
    end.
Proof.
  cbn zeta. unfold add_episode, try_except, bind, in_process.
  pose proof (bind_on_manager s (get_graphiti e) (fun g => ret g) (process sv)) as Hb.
  unfold bind in Hb.
  destruct (get_manager s (process sv)) as [p0 [[]|x]] eqn:Hgm.
  2:{ unfold get_manager in Hgm. destruct (graphiti_manager (process sv)); discriminate. }
  cbn beta iota in Hb |- *. cbn [process ingested].
  destruct (on_manager (get_graphiti e) p0) as [p1 r1]. cbn beta iota in Hb |- *.
  cbn [process ingested].
  destruct (get_graphiti e (world_of s (process sv))) as [w [g|x]]; cbn [fst snd];
    unfold ret in Hb.
  - destruct r1 as [g'|x']; [|discriminate]. injection Hb as -> ->.
    destruct g as [h|]; cbn [deref ret raise]; [|reflexivity].
    unfold graphiti_add_episode. cbn [process ingested].
    destruct ep as [n b sd rt]. cbn [EpisodeRequest.name EpisodeRequest.episode_body
      EpisodeRequest.source_description EpisodeRequest.reference_time].
    destruct (ing h _ _); reflexivity.
  - destruct r1 as [g'|x']; [discriminate|]. injection Hb as -> ->. reflexivity.
Qed.

(** X18: an ingestion request calls [add_episode] on the engine at most
    once, with the four fields of the request unchanged, and not at all
    when no handle can be had.  It reports success, with the submitted name,
    exactly when that one call returned; every failure comes out as a
    status 500 error whose detail starts with "Failed to add episode: ". *)
Theorem add_episode_outcome (e : Engine) (ing : Ingest) (s : Settings)
    (ep : EpisodeRequest.t) (sv : Service) :
  let res := add_episode e ing s ep sv in
  match snd res with
  | Returns resp =>
      resp = {| EpisodeResponse.success := true;
                EpisodeResponse.message := "Episode added successfully";
                EpisodeResponse.episode_name := EpisodeRequest.name ep |}
      /\ exists h, graphiti_manager (process (fst res)) <> None
           /\ ingested (fst res) = (h, ep, true) :: ingested sv
  | Raises x =>
      (exists cause, x = HTTPException 500 "Failed to add episode: " cause)
      /\ (ingested (fst res) = ingested sv
          \/ exists h, ingested (fst res) = (h, ep, false) :: ingested sv)
  end.
Proof.
  cbn zeta. rewrite add_episode_cases. cbn zeta.
  destruct (snd (get_graphiti e _)) as [[h|]|x]; cbn [fst snd ingested]; eauto.
  destruct (ing h ep _); cbn [fst snd ingested process]; eauto.
Qed.

Lemma get_graph_stats_unfold (e : Engine) (s : Settings) (p : Process) :
  get_graph_stats e s p =
    match get_graphiti e (world_of s p) with
    | (w, Returns _) =>
        (process_of w,
         Returns {| StatsResponse.nodes_count := 0;
                    StatsResponse.edges_count := 0;
                    StatsResponse.episodes_count := 0;
                    StatsResponse.graph_status := "active" |})
    | (w, Raises x) =>
        (process_of w, Raises (HTTPException 500 "Failed to get statistics: " x))
    end.
Proof.
  unfold get_graph_stats, try_except. rewrite bind_on_manager.
  destruct (get_graphiti e (world_of s p)) as [w [g|x]]; reflexivity.
Qed.

(** X19: the statistics are placeholders: whenever a handle can be had the
    answer is 0 nodes, 0 edges, 0 episodes and "active", and the engine is
    never queried for it; the only failure is a handle that could not be
    constructed, which comes out as status 500 around tenacity's
    [RetryError]. *)
Theorem get_graph_stats_placeholder (e : Engine) (s : Settings) (p : Process) :
  let res := get_graph_stats e s p in
  List.filter is_search (outside (fst res)) = List.filter is_search (outside p)
  /\ match snd res with
     | Returns resp =>
         resp = {| StatsResponse.nodes_count := 0;
                   StatsResponse.edges_count := 0;
                   StatsResponse.episodes_count := 0;
                   StatsResponse.graph_status := "active" |}
     | Raises x =>
         exists msg, x = HTTPException 500 "Failed to get statistics: "
                           (RetryError (ExternalError msg))
     end.
Proof.
  cbn zeta. rewrite get_graph_stats_unfold.
  destruct (get_graphiti_lifecycle e (world_of s p)) as (new & Hev & Hl).
  destruct (lifecycle_no_probe new Hl) as (Hs & _ & _).
  pose proof (get_graphiti_never_none e (world_of s p)) as Hn.
  destruct (get_graphiti e (world_of s p)) as [w [g|x]]; cbn [fst snd process_of outside] in *;
    (split; [rewrite Hev, List.filter_app, Hs; reflexivity|]).
  - reflexivity.
  - destruct Hn as (_ & msg & ->). eauto.
Qed.

(** ** The manager across requests *)

Section Requests.

Variable e : Engine.
Variable ing : Ingest.
Variable s : Settings.

Lemma health_check_settings (w : World) :
  settings (self (fst (health_check e w))) = settings (self w).
Proof.
  rewrite health_check_unfold. cbn zeta. cbn [fst].
  destruct (gemini_probe_effect e w) as [Hg _].
  destruct (graphiti_probe_effect e (fst (gemini_probe e w))) as (Hs & _).
  now rewrite Hs, Hg.
Qed.

(** What answering a request does to the manager. *)
Lemma serve_effect (r : Request) (sv : Service) :
  let w0 := world_of s (process sv) in
  exists w',
    process (serve e ing s r sv) = process_of w'
    /\ settings (self w') = settings (self w0)
    /\ (forall h, _graphiti (self w0) = Some h ->
          self w' = self w0 /\ constructions (events w') = constructions (events w0)).
Proof.
  cbn zeta. destruct r as [|ep|req|]; unfold serve, in_process.
  - rewrite health_endpoint_unfold.
    pose proof (health_check_settings (world_of s (process sv))) as Hs.
    pose proof (fun h => health_check_when_ready e (world_of s (process sv)) h) as Hr.
    destruct (health_check e (world_of s (process sv))) as [w [rep|x]]; cbn [fst snd process] in *;
      exists w; (split; [reflexivity|]); (split; [exact Hs|]);
      intros h Hh; destruct (Hr h Hh) as (H1 & H2 & _); auto.
  - rewrite add_episode_cases. cbn zeta.
    destruct (get_graphiti_effect e (world_of s (process sv))) as (Hs & Hh & _).
    exists (fst (get_graphiti e (world_of s (process sv)))).
    split.
    { destruct (snd (get_graphiti e _)) as [[h|]|x]; [destruct (ing h ep _)| |]; reflexivity. }
    split; [exact Hs|]. intros h H. rewrite (get_graphiti_ready e _ h H). auto.
  - rewrite search_graph_cases. cbn zeta.
    destruct (get_graphiti_effect e (world_of s (process sv))) as (Hs & Hh & _).
    destruct (snd (get_graphiti e (world_of s (process sv)))) as [[h|]|x] eqn:Ho.
    + eexists (emit _ (fst (get_graphiti e (world_of s (process sv))))).
      split.
      { destruct (search_call e h _ _ _ _) as [hits|x]; [destruct (validate_results _)|];
          reflexivity. }
      split; [exact Hs|]. intros h' H. rewrite (get_graphiti_ready e _ h' H). auto.
    + exists (fst (get_graphiti e (world_of s (process sv)))).
      split; [reflexivity|]. split; [exact Hs|].
      intros h' H. rewrite (get_graphiti_ready e _ h' H). auto.
    + exists (fst (get_graphiti e (world_of s (process sv)))).
      split; [reflexivity|]. split; [exact Hs|].
      intros h' H. rewrite (get_graphiti_ready e _ h' H). auto.
  - rewrite get_graph_stats_unfold.
    destruct (get_graphiti_effect e (world_of s (process sv))) as (Hs & Hh & _).
    exists (fst (get_graphiti e (world_of s (process sv)))).
    split.
    { destruct (get_graphiti e _) as [w [g|x]]; reflexivity. }
    split; [exact Hs|]. intros h H. rewrite (get_graphiti_ready e _ h H). auto.
Qed.

End Requests.

(** X20: once the process has a manager that holds a handle (as after a
    successful startup), no sequence of requests to the four endpoints
    replaces the manager, changes its handle or settings, or calls the
    Graphiti constructor again. *)
Theorem requests_keep_manager (e : Engine) (ing : Ingest) (s : Settings)
    (rs : list Request) (sv : Service) (mgr : GraphitiGeminiManager) (h : Handle) :
  graphiti_manager (process sv) = Some mgr ->
  _graphiti mgr = Some h ->
  graphiti_manager (process (serve_all e ing s rs sv)) = Some mgr
  /\ constructions (outside (process (serve_all e ing s rs sv)))
     = constructions (outside (process sv)).
Proof.
  revert sv. induction rs as [|r rs IH]; intros sv Hm Hh; [now split|].
  unfold serve_all in *. cbn [fold_left].
  destruct (serve_effect e ing s r sv) as (w' & Hp & _ & Hready).
  rewrite (world_of_warm s _ mgr Hm) in Hready. cbn [self events] in Hready.
  destruct (Hready h Hh) as [Hself Hcons].
  destruct (IH (serve e ing s r sv)) as [IH1 IH2].
  - rewrite Hp. cbn. now rewrite Hself.
  - exact Hh.
  - split; [exact IH1|]. rewrite IH2, Hp. cbn. exact Hcons.
Qed.

Lemma requests_keep_manager_witness :
  let e := mock never never (Returns hits_with_to_dict) (Returns true) in
  let ing : Ingest := fun _ _ _ => Some "rejected" in
  let started := fst (lifespan_startup e test_settings new_process) in
  let sv := {| process := started; ingested := [] |} in
  let ep := {| EpisodeRequest.name := "n"; EpisodeRequest.episode_body := "b";
               EpisodeRequest.source_description := None;
               EpisodeRequest.reference_time := None |} in
  let rs := [GetHealth; PostSearch scenario_request; PostEpisodes ep; GetStats] in
  let mgr := {| settings := test_settings; _graphiti := Some 0 |} in
  graphiti_manager (process sv) = Some mgr
  /\ graphiti_manager (process (serve_all e ing test_settings rs sv)) = Some mgr
  /\ constructions (outside (process (serve_all e ing test_settings rs sv)))
     = constructions (outside (process sv)).
Proof.
  cbn zeta. split; [reflexivity|].
  apply (requests_keep_manager _ _ _ _ _ _ 0); reflexivity.
Defined.

(** X21: every request leaves a manager behind, and it is always a
    manager built from the application settings: starting without one, after
    one or more requests the process has a manager whose settings are the
    application settings. *)
Theorem requests_create_manager (e : Engine) (ing : Ingest) (s : Settings)
    (rs : list Request) :
  rs <> [] ->
  exists mgr,
    graphiti_manager (process (serve_all e ing s rs new_service)) = Some mgr
    /\ settings mgr = s.
Proof.
  assert (Hgen : forall rs sv,
             (forall mgr, graphiti_manager (process sv) = Some mgr -> settings mgr = s) ->
             rs <> [] ->
             exists mgr,
               graphiti_manager (process (serve_all e ing s rs sv)) = Some mgr
               /\ settings mgr = s).
  { clear rs. induction rs as [|r rs IH]; intros sv Hsv Hne; [congruence|].
    unfold serve_all in *. cbn [fold_left].
    destruct (serve_effect e ing s r sv) as (w' & Hp & Hs & _).
    assert (Hw' : settings (self w') = s).
    { rewrite Hs. unfold world_of. cbn.
      destruct (graphiti_manager (process sv)) as [mgr|] eqn:Hm; cbn; auto. }
    destruct rs as [|r' rs].
    - cbn. rewrite Hp. cbn. eauto.
    - apply IH; [|discriminate]. intros mgr. rewrite Hp. cbn. now intros [= <-]. }
  apply Hgen. intros mgr. cbn. discriminate.
Qed.

Lemma requests_create_manager_witness :
  let e := mock always never (Returns []) (Returns false) in
  let ing : Ingest := fun _ _ _ => None in
  [GetStats] <> []
  /\ exists mgr,
       graphiti_manager (process (serve_all e ing test_settings [GetStats] new_service))
       = Some mgr
       /\ settings mgr = test_settings.
Proof.
  split; [discriminate|].
  apply (requests_create_manager (mock always never (Returns []) (Returns false))
           (fun _ _ _ => None) test_settings [GetStats]).
  discriminate.
Defined.

(** X22: startup either leaves a manager that holds a handle, or fails
    with tenacity's [RetryError], passed on as it is (not as an HTTP error);
    in both cases the process has its manager. *)
Theorem lifespan_startup_outcome (e : Engine) (s : Settings) (p : Process) :
  let res := lifespan_startup e s p in
  match snd res with
  | Returns _ =>
      exists mgr h, graphiti_manager (fst res) = Some mgr /\ _graphiti mgr = Some h
  | Raises x =>
      (exists msg, x = RetryError (ExternalError msg))
      /\ graphiti_manager (fst res) <> None
  end.
Proof.
  cbn zeta. unfold lifespan_startup, try_except.
  rewrite (bind_on_manager s (initialize_graphiti e) (fun _ => ret tt) p).
  destruct (initialize_graphiti_effect e (world_of s p)) as (_ & _ & Hv & Hx & _).
  destruct (initialize_graphiti e (world_of s p)) as [w [v|x]]; cbn [fst snd] in *.
  - destruct (Hv v eq_refl) as [-> [h Hh]]. cbn. eauto.
  - split; [now apply Hx|]. cbn. discriminate.
Qed.

(** ** Building the settings *)

Lemma required_field_spec (name : string) (v : option string) :
  required_field name v
  = if absent_or_empty v then inl [name] else inr (default "" v).
Proof.
  unfold required_field, absent_or_empty, validate_required_keys.
  destruct v as [x|]; [|reflexivity]. now destruct (String.eqb x "").
Qed.

(** X23: the settings can be built exactly when the three fields without
    default are supplied and not empty.  Then they are stored as supplied;
    otherwise the error names exactly the fields among them that are absent
    or empty, in the order of the class. *)
Theorem new_Settings_required (src : SettingsSource) :
  let bad name v := if absent_or_empty v then [name] else [] in
  match new_Settings src with
  | inr st =>
      src_google_api_key src = Some (google_api_key st) /\ google_api_key st <> ""
      /\ src_openai_api_key src = Some (openai_api_key st) /\ openai_api_key st <> ""
      /\ src_neo4j_password src = Some (neo4j_password st) /\ neo4j_password st <> ""
  | inl errs =>
      errs <> []
      /\ errs = (bad "google_api_key" (src_google_api_key src)
                 ++ bad "openai_api_key" (src_openai_api_key src)
                 ++ bad "neo4j_password" (src_neo4j_password src))%list
  end.
Proof.
  cbn zeta. unfold new_Settings. rewrite !required_field_spec.
  destruct (src_google_api_key src) as [g|]; destruct (src_openai_api_key src) as [o|];
    destruct (src_neo4j_password src) as [pw|]; cbn;
    try destruct (String.eqb_spec g ""); try destruct (String.eqb_spec o "");
    try destruct (String.eqb_spec pw ""); cbn; repeat split; auto; discriminate.
Qed.

(** X24: with nothing but the three required values supplied, the
    settings are the defaults of the class: the retry fields 3 and 1.0, the
    Neo4j address "bolt://neo4j:7687", the model "gemini-1.5-pro", port
    8000. *)
Theorem new_Settings_defaults (google openai password : string) :
  google <> "" -> openai <> "" -> password <> "" ->
  new_Settings (only_required google openai password)
  = inr (default_settings google openai password).
Proof.
  intros Hg Ho Hp. unfold new_Settings. rewrite !required_field_spec.
  unfold only_required, absent_or_empty. cbn.
  destruct (String.eqb_spec google ""); [contradiction|].
  destruct (String.eqb_spec openai ""); [contradiction|].
  destruct (String.eqb_spec password ""); [contradiction|].
  reflexivity.
Qed.

Lemma new_Settings_defaults_witness :
  "google-key" <> "" /\ "openai-key" <> "" /\ "secret" <> ""
  /\ new_Settings (only_required "google-key" "openai-key" "secret") = inr test_settings.
Proof.
  split; [discriminate|]. split; [discriminate|]. split; [discriminate|].
  apply (new_Settings_defaults "google-key" "openai-key" "secret"); discriminate.
Defined.

(** * Single flight with an engine that constructs *)

Section SingleFlight.

Variable e : Engine.
Variable s : Settings.
Hypothesis constructs : Graphiti_call e (graphiti_args_of s) 0 = None.








End SingleFlight.



(** * The calls of a health check *)



(** * Bounded resumptions *)

Section Resumptions.

Variable e : Engine.

Lemma bounds_run_at i sys sys' :
  within_bounds sys ->
  Async.run e i sys = Some sys' ->
  forall j,
    (if decide (i = j) then 1 else 0)
    + from_option resumptions_left 0 (Async.tasks sys' !! j)
    <= from_option resumptions_left 0 (Async.tasks sys !! j).
Proof.
  intros [Hall _] Hrun j. unfold Async.run in Hrun.
  destruct (Async.tasks sys !! i) as [t|] eqn:Ht; [|discriminate].
  destruct (Async.resume e t (Async.world sys)) as [[w' p]|] eqn:Hres; [|discriminate].
  injection Hrun as <-. cbn [Async.tasks].
  assert (Hb : task_bounded t) by (rewrite Forall_lookup in Hall; exact (Hall i t Ht)).
  destruct (resume_bounds e t _ _ _ Hb Hres) as (_ & Hlt & _).
  destruct (decide (i = j)) as [<-|Hne].
  - rewrite list_lookup_insert_eq by (eapply lookup_lt_Some; eauto).
    rewrite Ht. cbn. lia.
  - rewrite list_lookup_insert_ne by exact Hne. lia.
Qed.

Lemma bounds_schedule_at sch : forall sys sys',
  within_bounds sys ->
  Async.run_schedule e sch sys = Some sys' ->
  forall j,
    count_occ Nat.eq_dec sch j + from_option resumptions_left 0 (Async.tasks sys' !! j)
    <= from_option resumptions_left 0 (Async.tasks sys !! j).
Proof.
  induction sch as [|i sch IH]; intros sys sys' Hw Hrun j; cbn in Hrun.
  - injection Hrun as <-. cbn. lia.
  - destruct (Async.run e i sys) as [sys1|] eqn:H1; [|discriminate].
    destruct (bounds_run e i sys sys1 Hw H1) as (Hw1 & _).
    pose proof (IH sys1 sys' Hw1 Hrun j) as Hrest.
    pose proof (bounds_run_at i sys sys1 Hw H1 j) as Hstep.
    cbn [count_occ]. destruct (Nat.eq_dec i j) as [->|Hne].
    + rewrite decide_True in Hstep by reflexivity. lia.
    + rewrite decide_False in Hstep by exact Hne. lia.
Qed.

End Resumptions.

(** X11: retries are bounded under every interleaving: no schedule resumes
    one caller more than 6 times, nor N callers more than 6 N times in all.
    (How long an awaited call of the engine takes, or whether it returns at
    all, is not part of this statement.) *)
Theorem resumptions_bounded (e : Engine) (s : Settings) (entries : list Async.entry)
    (sch : list nat) (sys : Async.System) :
  Async.run_schedule e sch (Async.spawn s entries) = Some sys ->
  length sch <= 6 * length entries
  /\ forall i, count_occ Nat.eq_dec sch i <= 6.
Proof.
  intros Hrun.
  destruct (bounds_spawn s entries) as [Hw0 H0].
  destruct (bounds_schedule e sch _ _ Hw0 Hrun) as (_ & _ & Hm).
  split; [lia|]. intros i.
  pose proof (bounds_schedule_at e sch _ _ Hw0 Hrun i) as Hi.
  assert (from_option resumptions_left 0 (Async.tasks (Async.spawn s entries) !! i) <= 6).
  { unfold Async.spawn. cbn [Async.tasks]. rewrite list_lookup_fmap.
    destruct (entries !! i); cbn; lia. }
  lia.
Qed.

Lemma resumptions_bounded_witness :
  let e := mock always never (Returns []) (Returns true) in
  let entries := [Async.call_get_graphiti; Async.call_initialize_graphiti] in
  let sch := [0; 1; 0; 1; 1; 0] in
  exists sys,
    Async.run_schedule e sch (Async.spawn test_settings entries) = Some sys
    /\ Async.all_done sys = true
    /\ length sch <= 6 * length entries
    /\ forall i, count_occ Nat.eq_dec sch i <= 6.
Proof.
  cbn zeta. eexists. split; [reflexivity|]. split; [reflexivity|].
  eapply (resumptions_bounded (mock always never (Returns []) (Returns true)) test_settings
            [Async.call_get_graphiti; Async.call_initialize_graphiti] [0; 1; 0; 1; 1; 0]).
  reflexivity.
Defined.
